(** * poetry/poetry.py: manifest resolution and configuration composition

    A shallow embedding of the [Poetry] facade of [src/poetry/poetry.py]:
    [Poetry.locate], [Poetry.check], [Poetry.create] and
    [Poetry.create_legacy_repository], together with the Python values,
    exceptions, paths and file system they work on. *)

From Stdlib Require Import Ascii String.
From stdpp Require Import base option list strings gmap.

(** ** Python values as the TOML reader produces them *)

(** A parsed TOML document: tables keep their declaration order, as the
    dict returned by [TomlFile.read] does. *)
#[warnings="-register-all"]
Inductive toml : Type :=
  | TStr (s : string)
  | TInt (z : Z)
  | TBool (b : bool)
  | TList (items : list toml)
  | TTable (entries : list (string * toml)).

(** The exceptions the module raises or lets through. *)
Inductive exn : Type :=
  | RuntimeError (msg : string)
  | TypeError
  | KeyError (key : string)
  | AttributeError
  | ValueError
  | OSError
  | TOMLError.

(** A computation that returns or raises. *)
Inductive result (A : Type) : Type :=
  | Ok (a : A)
  | Raise (e : exn).
Arguments Ok {A} a.
Arguments Raise {A} e.

#[global] Instance result_ret : MRet result := fun A a => Ok a.
#[global] Instance result_bind : MBind result :=
  fun A B f m => match m with Ok a => f a | Raise e => Raise e end.
#[global] Instance result_fmap : FMap result :=
  fun A B f m => match m with Ok a => Ok (f a) | Raise e => Raise e end.

(** [for x in xs: body], the body threading a state and possibly raising. *)
Fixpoint for_each {A S : Type} (body : S -> A -> result S) (xs : list A) (s : S)
  : result S :=
  match xs with
  | [] => Ok s
  | x :: xs' => s' ← body s x; for_each body xs' s'
  end.

(** Dictionary lookup by key, first binding (keys of a dict are unique). *)
Fixpoint assoc {V : Type} (k : string) (kvs : list (string * V)) : option V :=
  match kvs with
  | [] => None
  | (k', v) :: rest => if String.eqb k k' then Some v else assoc k rest
  end.

(** [d[k] = v] on a dict: overwrite in place, or append a new key. *)
Fixpoint dict_set {V : Type} (k : string) (v : V) (kvs : list (string * V))
  : list (string * V) :=
  match kvs with
  | [] => [(k, v)]
  | (k', v') :: rest =>
      if String.eqb k k' then (k', v) :: rest else (k', v') :: dict_set k v rest
  end.

(** [sub in s] on two strings. *)
Definition str_contains (sub s : string) : bool :=
  match String.index 0 sub s with Some _ => true | None => false end.

(** [x == s] for a string literal [s]. *)
Definition eq_str (x : toml) (s : string) : bool :=
  match x with TStr s' => String.eqb s' s | _ => false end.

(** [key in v]: key test on a table, substring test on a string, element
    test on a list; other values are not containers. *)
Definition py_in (key : string) (v : toml) : result bool :=
  match v with
  | TTable entries => Ok (bool_decide (is_Some (assoc key entries)))
  | TStr s => Ok (str_contains key s)
  | TList items => Ok (existsb (fun x => eq_str x key) items)
  | TInt _ | TBool _ => Raise TypeError
  end.

(** [v[key]] with a string key. *)
Definition py_getitem (v : toml) (key : string) : result toml :=
  match v with
  | TTable entries =>
      match assoc key entries with
      | Some x => Ok x
      | None => Raise (KeyError key)
      end
  | _ => Raise TypeError
  end.

(** [v.get(key)]: [None] when the key is absent. *)
Definition py_get (v : toml) (key : string) : result (option toml) :=
  match v with
  | TTable entries => Ok (assoc key entries)
  | _ => Raise AttributeError
  end.

(** [v.get(key, default)]. *)
Definition py_get_default (v : toml) (key : string) (default : toml) : result toml :=
  o ← py_get v key; Ok (from_option id default o).

(** [v.items()]. *)
Definition py_items (v : toml) : result (list (string * toml)) :=
  match v with
  | TTable entries => Ok entries
  | _ => Raise AttributeError
  end.

(** The one-character strings of a string, as iterating it yields them. *)
Fixpoint str_chars (s : string) : list toml :=
  match s with
  | EmptyString => []
  | String c s' => TStr (String c EmptyString) :: str_chars s'
  end.

(** [for x in v]. *)
Definition py_iter (v : toml) : result (list toml) :=
  match v with
  | TList items => Ok items
  | TTable entries => Ok (map (fun kv => TStr (fst kv)) entries)
  | TStr s => Ok (str_chars s)
  | TInt _ | TBool _ => Raise TypeError
  end.

Definition is_list (v : toml) : bool :=
  match v with TList _ => true | _ => false end.

(** [s.lower()]; only the letters A-Z matter for a comparison with an
    all-ASCII lower-case literal. *)
Definition lower_ascii (c : ascii) : ascii :=
  let n := nat_of_ascii c in
  if (65 <=? n)%nat && (n <=? 90)%nat then ascii_of_nat (n + 32) else c.

Fixpoint lower (s : string) : string :=
  match s with
  | EmptyString => EmptyString
  | String c s' => String (lower_ascii c) (lower s')
  end.


(** ** Paths (pathlib, POSIX flavour) *)

(** A path is its anchor (["/"] for an absolute path, [""] for a relative
    one) and its components. *)
Record Path : Type := mkPath { anchor : string; parts : list string }.

#[global] Instance Path_eq_dec : EqDecision Path.
Proof. solve_decision. Defined.

Fixpoint split_on (sep : ascii) (s cur : string) : list string :=
  match s with
  | EmptyString => [cur]
  | String c s' =>
      if Ascii.eqb c sep then cur :: split_on sep s' EmptyString
      else split_on sep s' (cur +:+ String c EmptyString)
  end.

(** [Path(s)]: empty and ["."] components are dropped. *)
Definition parse_path (s : string) : Path :=
  {| anchor := if String.prefix "/" s then "/" else "";
     parts := filter (fun p => p <> "" /\ p <> ".") (split_on "/" s "") |}.

(** [p / s]: an absolute right operand replaces the left one. *)
Definition joinpath (p : Path) (s : string) : Path :=
  let q := parse_path s in
  if String.eqb (anchor q) "" then
    {| anchor := anchor p; parts := parts p ++ parts q |}
  else q.

Notation "p </> s" := (joinpath p s) (at level 40, left associativity).

(** [p.name]: the last component, empty when there is none. *)
Definition name (p : Path) : string := default "" (last (parts p)).

(** [p.parent]. *)
Definition parent (p : Path) : Path :=
  {| anchor := anchor p; parts := removelast (parts p) |}.

(** [p.parents]: entry [idx] keeps all but the last [idx + 1] components. *)
Definition parents (p : Path) : list Path :=
  map (fun idx => {| anchor := anchor p;
                     parts := firstn (length (parts p) - idx - 1) (parts p) |})
      (seq 0 (length (parts p))).

Fixpoint rfind (c : ascii) (s : string) (i : nat) (found : option nat) : option nat :=
  match s with
  | EmptyString => found
  | String a s' => rfind c s' (S i) (if Ascii.eqb a c then Some i else found)
  end.

(** [p.suffix] computed on the name. *)
Definition suffix_of (nm : string) : string :=
  match rfind "." nm 0 None with
  | Some i =>
      if (0 <? i)%nat && (i <? String.length nm - 1)%nat
      then String.substring i (String.length nm - i) nm
      else ""
  | None => ""
  end.

(** [p.with_suffix(suffix)]. *)
Definition with_suffix (p : Path) (suffix : string) : result Path :=
  if str_contains "/" suffix then Raise ValueError
  else if (negb (String.eqb suffix "") && negb (String.prefix "." suffix))
          || String.eqb suffix "." then Raise ValueError
  else
    let nm := name p in
    if String.eqb nm "" then Raise ValueError
    else
      let old_suffix := suffix_of nm in
      let nm' :=
        if String.eqb old_suffix "" then nm +:+ suffix
        else String.substring 0 (String.length nm - String.length old_suffix) nm
               +:+ suffix in
      Ok {| anchor := anchor p; parts := removelast (parts p) ++ [nm'] |}.

(** ** The file system *)

Inductive node : Type :=
  | File (content : string)
  | Directory.

(** What is found at each path. *)
Definition FS : Type := Path -> option node.

(** [p.exists()]. *)
Definition path_exists (fs : FS) (p : Path) : bool := bool_decide (is_Some (fs p)).

(** The components of [q] below [base], when [q] is [base] or lies under it. *)
Fixpoint strip_prefix (base q : list string) : option (list string) :=
  match base, q with
  | [], _ => Some q
  | b :: base', c :: q' => if String.eqb b c then strip_prefix base' q' else None
  | _ :: _, [] => None
  end.

Definition relative_to (q base : Path) : option (list string) :=
  if String.eqb (anchor q) (anchor base) then strip_prefix (parts base) (parts q)
  else None.

(** [shutil.move(src, dst)] onto a destination that does not exist: a
    rename, which carries along whatever lies under [src]. *)
Definition move (fs : FS) (src dst : Path) : FS :=
  fun q =>
    match relative_to q dst with
    | Some rest => fs {| anchor := anchor src; parts := parts src ++ rest |}
    | None =>
        match relative_to q src with
        | Some _ => None
        | None => fs q
        end
    end.

(** [str(p)]. *)
Definition path_str (p : Path) : string :=
  match parts p with
  | [] => if String.eqb (anchor p) "" then "." else anchor p
  | _ => anchor p +:+ String.concat "/" (parts p)
  end.

(** ** Collaborators *)

(** What the module imports and only calls: the schema validator, the
    licence table, the constraint evaluator, the environment marker
    provider, the TOML parser, the configuration object and the credential
    lookup. *)
Class Collaborators : Type := {
  (** [validate_object(config, schema_name)]: the list of schema errors. *)
  validate_object : toml -> string -> list string;
  License : Type;
  (** [license_by_id(id)]; it raises [ValueError] for an unknown identifier. *)
  license_by_id : toml -> result License;
  Version : Type;
  Constraint : Type;
  (** [Version.parse(Env.get(cwd).get_marker_env()['python_version'])]. *)
  env_python_version : Path -> result Version;
  parse_single_constraint : toml -> result Constraint;
  (** [constraint.allows(version)]. *)
  allows : Constraint -> Version -> bool;
  (** The parser behind [TomlFile.read]. *)
  toml_loads : string -> result toml;
  CONFIG_DIR : Path;
  Config : Type;
  (** [Config()]. *)
  Config_new : Config;
  (** [config.merge(data)], returning the updated configuration. *)
  Config_merge : Config -> toml -> Config;
  (** [get_http_basic_auth(config, name)]: the stored pair, if any. *)
  get_http_basic_auth : Config -> string -> option (string * string)
}.

(** ** The package model *)

(** Modelled from the spec: the [Dependency] class of [poetry.packages] is
    not part of the source at hand. A dependency has a name, the constraint
    it was declared with, a category (["main"] by default, or ["dev"]) and
    the names of the extras that refer to it. *)
Record Dependency : Type := mkDependency {
  dep_name : string;
  dep_constraint : toml;
  dep_category : string;
  in_extras : list string
}.

(** [dep.in_extras.append(extra_name)]. *)
Definition in_extras_append (dep : Dependency) (extra_name : string) : Dependency :=
  {| dep_name := dep_name dep; dep_constraint := dep_constraint dep;
     dep_category := dep_category dep;
     in_extras := in_extras dep ++ [extra_name] |}.

(** [Locker(lock, local_config)]. *)
Record Locker : Type := mkLocker { lock_file : Path; lock_local_config : toml }.

(** The result of [Poetry.check]. *)
Record CheckResult : Type := mkCheckResult {
  errors : list string;
  warnings : list string
}.

(** [Auth(url, username, password)]. *)
Record Auth : Type := mkAuth {
  auth_url : string; auth_username : string; auth_password : string
}.

(** [LegacyRepository(name, url, auth=None)]. *)
Record LegacyRepository : Type := mkLegacyRepository {
  repo_name : string; repo_url : string; repo_auth : option Auth
}.

(** ** The errors by the names the specification gives them *)

Definition ManifestNotFound (cwd : Path) : exn :=
  RuntimeError ("Poetry could not find a pyproject.toml file in "
                +:+ path_str cwd +:+ " or its parents").

Definition ManifestSectionMissing (poetry_file : Path) : exn :=
  RuntimeError ("[tool.poetry] section not found in " +:+ name poetry_file).

(** The line feed. *)
Definition nl : string := String (ascii_of_nat 10) EmptyString.

(** Lines 77-79: [message] grows by one line per error. *)
Fixpoint error_lines (message : string) (errs : list string) : string :=
  match errs with
  | [] => message
  | error :: rest => error_lines (message +:+ ("  - " +:+ error +:+ nl)) rest
  end.

Definition ManifestInvalid (errs : list string) : exn :=
  RuntimeError (("The Poetry configuration is invalid:" +:+ nl)
                +:+ error_lines "" errs).

Definition UnsupportedSource : exn := RuntimeError "Unsupported source specified".

Definition MissingSourceName : exn := RuntimeError "Missing [name] in source.".

(** ** [Poetry.locate] *)

(** The loop over the candidate directories; [None] when it runs to its
    end without returning. *)
Fixpoint locate_loop (fs : FS) (candidates : list Path) : option Path :=
  match candidates with
  | [] => None
  | path :: rest =>
      let poetry_file := path </> "pyproject.toml" in
      if path_exists fs poetry_file then Some poetry_file
      else locate_loop fs rest
  end.

Definition locate (fs : FS) (cwd : Path) : result Path :=
  let candidates := [cwd] ++ parents cwd in
  match locate_loop fs candidates with
  | Some poetry_file => Ok poetry_file
  | None => Raise (ManifestNotFound cwd)
  end.

Section Poetry.

Context `{Collaborators}.

(** Modelled from the spec: [ProjectPackage] of [poetry.packages] is not
    part of the source at hand. The package carries the attributes that
    [Poetry.create] assigns; [requires] holds the Dependency objects, and an
    entry of [extras] refers to them by their position in [requires], an
    object listed under an extra being the one that [requires] holds. *)
Record Package : Type := mkPackage {
  pkg_name : toml;
  pkg_version : toml;
  pkg_pretty_version : toml;
  root_dir : Path;
  authors : list toml;
  maintainers : list toml;
  description : toml;
  homepage : option toml;
  repository_url : option toml;
  documentation_url : option toml;
  license : option License;
  keywords : toml;
  classifiers : toml;
  readme : option Path;
  platform : option toml;
  python_versions : toml;
  requires : list Dependency;
  extras : list (string * list nat);
  build : option toml;
  include : option toml;
  exclude : option toml;
  packages : option toml;
  custom_urls : option toml
}.

Definition set_python_versions (p : Package) (v : toml) : Package :=
  mkPackage (pkg_name p) (pkg_version p) (pkg_pretty_version p) (root_dir p)
    (authors p) (maintainers p) (description p) (homepage p) (repository_url p)
    (documentation_url p) (license p) (keywords p) (classifiers p) (readme p)
    (platform p) v (requires p) (extras p)
    (build p) (include p) (exclude p) (packages p) (custom_urls p).

Definition set_requires (p : Package) (ds : list Dependency) : Package :=
  mkPackage (pkg_name p) (pkg_version p) (pkg_pretty_version p) (root_dir p)
    (authors p) (maintainers p) (description p) (homepage p) (repository_url p)
    (documentation_url p) (license p) (keywords p) (classifiers p) (readme p)
    (platform p) (python_versions p) ds (extras p)
    (build p) (include p) (exclude p) (packages p) (custom_urls p).

Definition set_extras (p : Package) (ex : list (string * list nat)) : Package :=
  mkPackage (pkg_name p) (pkg_version p) (pkg_pretty_version p) (root_dir p)
    (authors p) (maintainers p) (description p) (homepage p) (repository_url p)
    (documentation_url p) (license p) (keywords p) (classifiers p) (readme p)
    (platform p) (python_versions p) (requires p) ex
    (build p) (include p) (exclude p) (packages p) (custom_urls p).

Definition set_passthrough (p : Package) (b i e pk u : option toml) : Package :=
  mkPackage (pkg_name p) (pkg_version p) (pkg_pretty_version p) (root_dir p)
    (authors p) (maintainers p) (description p) (homepage p) (repository_url p)
    (documentation_url p) (license p) (keywords p) (classifiers p) (readme p)
    (platform p) (python_versions p) (requires p) (extras p)
    (from_option Some (build p) b) (from_option Some (include p) i)
    (from_option Some (exclude p) e) (from_option Some (packages p) pk)
    (from_option Some (custom_urls p) u).

(** Modelled from the spec: [Package.add_dependency] is not part of the
    source at hand. It appends one Dependency of the given name, constraint
    and category to [requires]. *)
Definition add_dependency (package : Package) (nm : string) (constraint : toml)
    (category : string) : Package :=
  set_requires package
    (requires package ++ [mkDependency nm constraint category []]).

(** The facade object. *)
Record Poetry : Type := mkPoetry {
  file : Path;
  local_config : toml;
  package : Package;
  locker : Locker;
  config : Config;
  pool : list LegacyRepository
}.

(** ** [Poetry.check] *)

(** Modelled from the spec: the source of [check] stops after the schema
    errors are added to [result]; the body of the strict branch and the
    return of [result] are missing. [create] calls it with [strict=False]. *)
Definition check (cfg : toml) : CheckResult :=
  let result := {| errors := []; warnings := [] |} in
  let validation_errors := validate_object cfg "poetry-schema" in
  {| errors := errors result ++ validation_errors; warnings := warnings result |}.

(** ** [Poetry.create] *)

(** [TomlFile(p).read()]. *)
Definition read (fs : FS) (p : Path) : result toml :=
  match fs p with
  | Some (File content) => toml_loads content
  | Some Directory | None => Raise OSError
  end.

(** [v[key] if key in v else None]. *)
Definition py_if_present (v : toml) (key : string) : result (option toml) :=
  present ← py_in key v;
  if present : bool then Some <$> py_getitem v key else Ok None.

(** Lines 68-72: the [tool.poetry] section of the document. *)
Definition tool_poetry (poetry_file : Path) (doc : toml) : result toml :=
  has_tool ← py_in "tool" doc;
  missing ← (if has_tool : bool
             then tool ← py_getitem doc "tool"; negb <$> py_in "poetry" tool
             else Ok true);
  if missing : bool then Raise (ManifestSectionMissing poetry_file)
  else tool ← py_getitem doc "tool"; py_getitem tool "poetry".

(** Lines 74-81: the validity check. *)
Definition check_validity (cfg : toml) : result unit :=
  let check_result := check cfg in
  match errors check_result with
  | [] => Ok tt
  | _ :: _ => Raise (ManifestInvalid (errors check_result))
  end.

(** Lines 114-126: one entry of the [dependencies] table. *)
Definition dependencies_entry (package : Package) (entry : string * toml) : Package :=
  let '(nm, constraint) := entry in
  if String.eqb (lower nm) "python" then set_python_versions package constraint
  else
    match constraint with
    | TList constraints =>
        fold_left (fun package _constraint =>
                     add_dependency package nm _constraint "main")
                  constraints package
    | _ => add_dependency package nm constraint "main"
    end.

Definition load_dependencies (package : Package) (cfg : toml) : result Package :=
  present ← py_in "dependencies" cfg;
  if present : bool then
    table ← py_getitem cfg "dependencies";
    entries ← py_items table;
    Ok (fold_left dependencies_entry entries package)
  else Ok package.

(** Lines 134-139: one constraint of a [dev-dependencies] entry. *)
Definition dev_dependencies_constraint (v : Version) (nm : string)
    (package : Package) (_constraint : toml) : result Package :=
  has_python ← py_in "python" _constraint;
  if has_python : bool then
    sub ← py_getitem _constraint "python";
    python_constraint ← parse_single_constraint sub;
    if negb (allows python_constraint v) then Ok package
    else Ok (add_dependency package nm _constraint "dev")
  else Ok (add_dependency package nm _constraint "dev").

(** Lines 131-139: one entry of the [dev-dependencies] table. *)
Definition dev_dependencies_entry (v : Version) (package : Package)
    (entry : string * toml) : result Package :=
  let '(nm, constraint) := entry in
  let constraints :=
    match constraint with TList items => items | _ => [constraint] end in
  for_each (dev_dependencies_constraint v nm) constraints package.

Definition load_dev_dependencies (cwd : Path) (package : Package) (cfg : toml)
  : result Package :=
  present ← py_in "dev-dependencies" cfg;
  if present : bool then
    v ← env_python_version cwd;
    table ← py_getitem cfg "dev-dependencies";
    entries ← py_items table;
    for_each (dev_dependencies_entry v) entries package
  else Ok package.

(** Lines 149-154: the search of [requires] for the requirement; the first
    dependency of that name gets the extra appended to its [in_extras], its
    position is reported, and the search stops there. *)
Fixpoint extras_search (extra_name req_name : string) (deps : list Dependency)
    (i : nat) : list Dependency * option nat :=
  match deps with
  | [] => ([], None)
  | dep :: rest =>
      if String.eqb (dep_name dep) req_name
      then (in_extras_append dep extra_name :: rest, Some i)
      else
        let '(rest', hit) := extras_search extra_name req_name rest (S i) in
        (dep :: rest', hit)
  end.

(** [d[k].append(x)] on a dict of lists. *)
Fixpoint dict_append {V : Type} (k : string) (x : V) (kvs : list (string * list V))
  : list (string * list V) :=
  match kvs with
  | [] => []
  | (k', xs) :: rest =>
      if String.eqb k k' then (k', xs ++ [x]) :: rest
      else (k', xs) :: dict_append k x rest
  end.

(** Lines 146-154: one requirement of an extra. [Dependency(req, "*")]
    names a dependency by a string. *)
Definition extras_requirement (extra_name : string) (package : Package)
    (req : toml) : result Package :=
  match req with
  | TStr req_name =>
      let '(deps, hit) := extras_search extra_name req_name (requires package) 0 in
      let package := set_requires package deps in
      Ok match hit with
         | Some i => set_extras package (dict_append extra_name i (extras package))
         | None => package
         end
  | _ => Raise TypeError
  end.

(** Lines 142-154: one entry of the [extras] table. *)
Definition extras_entry (package : Package) (entry : string * toml)
  : result Package :=
  let '(extra_name, requirements) := entry in
  let package := set_extras package (dict_set extra_name [] (extras package)) in
  reqs ← py_iter requirements;
  for_each (extras_requirement extra_name) reqs package.

Definition load_extras (package : Package) (cfg : toml) : result Package :=
  table ← py_get_default cfg "extras" (TTable []);
  entries ← py_items table;
  for_each extras_entry entries package.

(** Lines 84-170: the package built from the validated section. *)
Definition load_package (cwd poetry_file : Path) (cfg : toml) : result Package :=
  nm ← py_getitem cfg "name";
  version ← py_getitem cfg "version";
  authors_ ← (py_getitem cfg "authors" ≫= py_iter);
  maintainers_ ← (py_get_default cfg "maintainers" (TList []) ≫= py_iter);
  description_ ← py_get_default cfg "description" (TStr "");
  homepage_ ← py_get cfg "homepage";
  repository_ ← py_get cfg "repository";
  documentation_ ← py_get cfg "documentation";
  license_id ← py_get_default cfg "license" (TStr "");
  license_ ← match license_by_id license_id with
             | Ok l => Ok (Some l)
             | Raise ValueError => Ok None
             | Raise e => Raise e
             end;
  keywords_ ← py_get_default cfg "keywords" (TList []);
  classifiers_ ← py_get_default cfg "classifiers" (TList []);
  readme_ ← (r ← py_if_present cfg "readme";
             match r with
             | Some (TStr s) => Ok (Some (parent poetry_file </> s))
             | Some _ => Raise TypeError
             | None => Ok None
             end);
  platform_ ← py_if_present cfg "platform";
  let package :=
    {| pkg_name := nm; pkg_version := version; pkg_pretty_version := version;
       root_dir := parent poetry_file;
       authors := authors_; maintainers := maintainers_;
       description := description_; homepage := homepage_;
       repository_url := repository_; documentation_url := documentation_;
       license := license_; keywords := keywords_; classifiers := classifiers_;
       readme := readme_; platform := platform_;
       python_versions := TStr "*"; requires := []; extras := [];
       build := None; include := None; exclude := None; packages := None;
       custom_urls := None |} in
  package ← load_dependencies package cfg;
  package ← load_dev_dependencies cwd package cfg;
  package ← load_extras package cfg;
  build_ ← py_if_present cfg "build";
  include_ ← py_if_present cfg "include";
  exclude_ ← py_if_present cfg "exclude";
  packages_ ← py_if_present cfg "packages";
  urls_ ← py_if_present cfg "urls";
  Ok (set_passthrough package build_ include_ exclude_ packages_ urls_).

(** Lines 172-178: the lock file moves from its old name to [poetry.lock]
    when only the old one is there. *)
Definition move_lock (fs : FS) (poetry_file : Path) : result FS :=
  let lock := parent poetry_file </> "poetry.lock" in
  if negb (path_exists fs lock) then
    old_lock ← with_suffix poetry_file ".lock";
    if path_exists fs old_lock then Ok (move fs old_lock lock) else Ok fs
  else Ok fs.

(** [if f.exists(): config.merge(f.read())]. *)
Definition merge_if_exists (fs : FS) (cfg : Config) (f : Path) : result Config :=
  if path_exists fs f then data ← read fs f; Ok (Config_merge cfg data)
  else Ok cfg.

(** Lines 182-195: the configuration. *)
Definition load_config (fs : FS) (poetry_file : Path) : result Config :=
  let cfg := Config_new in
  let config_file := CONFIG_DIR </> "config.toml" in
  cfg ← merge_if_exists fs cfg config_file;
  let local_config_file := parent poetry_file </> "poetry.toml" in
  cfg ← merge_if_exists fs cfg local_config_file;
  let auth_config_file := CONFIG_DIR </> "auth.toml" in
  merge_if_exists fs cfg auth_config_file.

(** Lines 65-170: everything [create] does before it touches the lock
    file; the file system is only read. *)
Definition create_package (fs : FS) (cwd : Path) : result (Path * toml * Package) :=
  poetry_file ← locate fs cwd;
  doc ← read fs poetry_file;
  cfg ← tool_poetry poetry_file doc;
  _ ← check_validity cfg;
  package ← load_package cwd poetry_file cfg;
  Ok (poetry_file, cfg, package).

(** [Poetry.create(cwd)]: the file system it leaves, and the facade or the
    exception. *)
Definition create (fs : FS) (cwd : Path) : FS * result Poetry :=
  match create_package fs cwd with
  | Raise e => (fs, Raise e)
  | Ok (poetry_file, cfg, package) =>
      match move_lock fs poetry_file with
      | Raise e => (fs, Raise e)
      | Ok fs' =>
          let locker := mkLocker (parent poetry_file </> "poetry.lock") cfg in
          (fs', cfg_ ← load_config fs' poetry_file;
                Ok (mkPoetry poetry_file cfg package locker cfg_ []))
      end
  end.

(** ** [Poetry.create_legacy_repository] *)

Definition create_legacy_repository (self : Poetry) (source : gmap string string)
  : result LegacyRepository :=
  _ ← (if bool_decide (is_Some (source !! "url")) then
         if negb (bool_decide (is_Some (source !! "name")))
         then Raise MissingSourceName else Ok tt
       else Raise UnsupportedSource);
  match source !! "name", source !! "url" with
  | Some nm, Some url =>
      match get_http_basic_auth (config self) nm with
      | None => Ok (mkLegacyRepository nm url None)
      | Some credentials =>
          let auth := mkAuth url (fst credentials) (snd credentials) in
          Ok (mkLegacyRepository nm url (Some auth))
      end
  | None, _ => Raise (KeyError "name")
  | _, None => Raise (KeyError "url")
  end.

(** ** [Poetry.set_pool] and [Poetry.set_config] *)

(** [self._pool = pool; return self]. *)
Definition set_pool (self : Poetry) (pool_ : list LegacyRepository) : Poetry :=
  mkPoetry (file self) (local_config self) (package self) (locker self)
    (config self) pool_.

(** [self._config = config; return self]. *)
Definition set_config (self : Poetry) (config_ : Config) : Poetry :=
  mkPoetry (file self) (local_config self) (package self) (locker self)
    config_ (pool self).

End Poetry.

Arguments Package {_}.

(** ** What the specification says, as functions *)

(** The Dependencies one entry of the main table stands for. *)
Definition entry_requires (entry : string * toml) : list Dependency :=
  if String.eqb (lower (fst entry)) "python" then []
  else
    match snd entry with
    | TList constraints =>
        map (fun c => mkDependency (fst entry) c "main" []) constraints
    | c => [mkDependency (fst entry) c "main" []]
    end.

(** The position in [deps] of the first dependency named [req_name]. *)
Fixpoint first_index (req_name : string) (deps : list Dependency) : option nat :=
  match deps with
  | [] => None
  | dep :: rest =>
      if String.eqb (dep_name dep) req_name then Some 0
      else S <$> first_index req_name rest
  end.

(** [dep] with further extras recorded after those it has. *)
Definition add_extras (dep : Dependency) (names : list string) : Dependency :=
  {| dep_name := dep_name dep; dep_constraint := dep_constraint dep;
     dep_category := dep_category dep; in_extras := in_extras dep ++ names |}.

(** The dependencies [deps0], each with the extras [M] gives its position
    recorded after those it has. *)
Definition recorded (deps0 : list Dependency) (M : nat -> list string)
  : list Dependency :=
  imap (fun i dep => add_extras dep (M i)) deps0.

(** The extras that reach position [i] of [deps]: one mention for every
    listed requirement whose first match is at [i], in the order of the
    table and of each list. *)
Definition extras_reaching (deps : list Dependency)
    (entries : list (string * list string)) (i : nat) : list string :=
  flat_map
    (fun entry =>
       flat_map (fun r => if decide (first_index r deps = Some i)
                          then [fst entry] else [])
                (snd entry))
    entries.

(** The reading of the extras step under which every dependency named by
    a requirement of an extra is marked with it and listed under it. *)
Definition every_match_recorded `{Collaborators}
    (entries : list (string * list string)) (package' : Package) : Prop :=
  forall e reqs r i dep,
    (e, reqs) ∈ entries -> r ∈ reqs ->
    requires package' !! i = Some dep -> dep_name dep = r ->
    e ∈ in_extras dep /\
    exists refs, assoc e (extras package') = Some refs /\ i ∈ refs.

(** The Python-version requirement after a main table: the constraint of
    the last entry named [python], or [before] when there is none. *)
Definition last_python (before : toml) (entries : list (string * toml)) : toml :=
  fold_left (fun acc entry =>
               if String.eqb (lower (fst entry)) "python" then snd entry else acc)
            entries before.

(** The constraints one entry of a dependency table lists. *)
Definition entry_constraints (constraint : toml) : list toml :=
  match constraint with TList items => items | c => [c] end.

(** Whether the development table keeps a constraint on a host running
    [v]; [None] when lines 135-137 raise on it. *)
Definition dev_keeps `{Collaborators} (v : Version) (c : toml) : option bool :=
  match c with
  | TTable fields =>
      match assoc "python" fields with
      | Some sub =>
          match parse_single_constraint sub with
          | Ok python_constraint => Some (allows python_constraint v)
          | Raise _ => None
          end
      | None => Some true
      end
  | TStr s => if str_contains "python" s then None else Some true
  | TList items =>
      if existsb (fun x => eq_str x "python") items then None else Some true
  | TInt _ | TBool _ => None
  end.

(** The Dependencies one entry of the development table stands for. *)
Definition dev_entry_requires `{Collaborators} (v : Version)
    (entry : string * toml) : list Dependency :=
  map (fun c => mkDependency (fst entry) c "dev" [])
      (filter (fun c => dev_keeps v c = Some true) (entry_constraints (snd entry))).

(** The attributes of a package that lines 84-112 set. *)
Definition metadata `{Collaborators} (p : Package) :=
  (pkg_name p, pkg_version p, pkg_pretty_version p, root_dir p, authors p,
   maintainers p, description p, homepage p, repository_url p,
   documentation_url p, license p, keywords p, classifiers p, readme p,
   platform p).

(** No dependency of the package has an extra recorded. *)
Definition no_extras_yet `{Collaborators} (p : Package) : Prop :=
  Forall (fun dep => in_extras dep = []) (requires p).

(** The attributes of a package that lines 156-170 set. *)
Definition passthrough `{Collaborators} (p : Package) :=
  (build p, include p, exclude p, packages p, custom_urls p).

(** The keys of the section that [create] looks at besides [name],
    [version] and [authors]. *)
Definition optional_keys : list string :=
  ["maintainers"; "description"; "homepage"; "repository"; "documentation";
   "license"; "keywords"; "classifiers"; "readme"; "platform"; "dependencies";
   "dev-dependencies"; "extras"; "build"; "include"; "exclude"; "packages";
   "urls"].

(** What a dependency was declared with. *)
Definition dep_fields (dep : Dependency) : string * toml * string :=
  (dep_name dep, dep_constraint dep, dep_category dep).

(** The directory a path stands for when the process works in [wd]: an
    absolute path starts from the root, a relative one from [wd], and a
    [..] component steps to the parent. *)
Definition resolve (wd : list string) (p : Path) : list string :=
  fold_left (fun dir part =>
               if String.eqb part ".." then removelast dir else dir ++ [part])
            (parts p)
            (if String.eqb (anchor p) "/" then [] else wd).

(** The file system as a process working in [wd] sees it, [disk] giving
    what lies at each absolute location. *)
Definition view (wd : list string) (disk : list string -> option node) : FS :=
  fun p => disk (resolve wd p).

(** The [extras] table as the TOML reader hands it over. *)
Definition extras_table (entries : list (string * list string)) : toml :=
  TTable (map (fun entry => (fst entry, TList (map TStr (snd entry)))) entries).
Arguments Poetry {_}.

(** ** A concrete world to run the definitions in *)

Module Demo.

(** A version is its major and minor number. *)
Definition version : Type := nat * nat.

Inductive constraint : Type :=
  | Any
  | Below (v : version)
  | AtLeast (v : version).

Definition version_ltb (a b : version) : bool :=
  (fst a <? fst b)%nat || ((fst a =? fst b)%nat && (snd a <? snd b)%nat).

Definition constraint_allows (c : constraint) (v : version) : bool :=
  match c with
  | Any => true
  | Below b => version_ltb v b
  | AtLeast b => negb (version_ltb v b)
  end.

(** The few constraint expressions the examples use. *)
Definition parse (v : toml) : result constraint :=
  match v with
  | TStr s =>
      if String.eqb s "*" then Ok Any
      else if String.eqb s "<3.0" then Ok (Below (3, 0))
      else if String.eqb s ">=3.0" then Ok (AtLeast (3, 0))
      else Raise ValueError
  | _ => Raise TypeError
  end.

(** A validator that asks for the three required fields. *)
Definition required (cfg : toml) (key : string) : list string :=
  match py_in key cfg with
  | Ok true => []
  | _ => ["'" +:+ key +:+ "' is a required property"]
  end.

Definition validate (cfg : toml) (schema : string) : list string :=
  required cfg "name" ++ required cfg "version" ++ required cfg "authors".

Definition license_lookup (v : toml) : result string :=
  match v with
  | TStr s => if String.eqb s "MIT" then Ok "MIT" else Raise ValueError
  | _ => Raise ValueError
  end.

(** Recursive overlay of [b] onto [a], to the given nesting depth. *)
Fixpoint merge_tables (depth : nat) (a b : list (string * toml))
  : list (string * toml) :=
  match depth with
  | 0 => fold_left (fun acc kv => dict_set (fst kv) (snd kv) acc) b a
  | S depth' =>
      fold_left
        (fun acc kv =>
           match assoc (fst kv) acc, snd kv with
           | Some (TTable ta), TTable tb =>
               dict_set (fst kv) (TTable (merge_tables depth' ta tb)) acc
           | _, v => dict_set (fst kv) v acc
           end)
        b a
  end.

Definition merge (cfg : list (string * toml)) (data : toml) : list (string * toml) :=
  match data with
  | TTable entries => merge_tables 8 cfg entries
  | _ => cfg
  end.

Definition http_basic_auth (cfg : list (string * toml)) (repository : string)
  : option (string * string) :=
  match assoc "http-basic" cfg with
  | Some (TTable repos) =>
      match assoc repository repos with
      | Some (TTable cred) =>
          match assoc "username" cred, assoc "password" cred with
          | Some (TStr u), Some (TStr p) => Some (u, p)
          | _, _ => None
          end
      | _ => None
      end
  | _ => None
  end.

(** The collaborators of a host running Python [host], whose files hold
    the documents listed in [docs] by their text. *)
Definition world (host : version) (docs : list (string * toml)) : Collaborators := {|
  validate_object := validate;
  License := string;
  license_by_id := license_lookup;
  Version := version;
  Constraint := constraint;
  env_python_version := fun _ => Ok host;
  parse_single_constraint := parse;
  allows := constraint_allows;
  toml_loads := fun text =>
    match assoc text docs with Some d => Ok d | None => Raise TOMLError end;
  CONFIG_DIR := parse_path "/home/user/.config/pypoetry";
  Config := list (string * toml);
  Config_new := [];
  Config_merge := merge;
  get_http_basic_auth := http_basic_auth
|}.

(** A file system given by the list of its entries. *)
Fixpoint files (entries : list (Path * node)) (p : Path) : option node :=
  match entries with
  | [] => None
  | (q, n) :: rest => if decide (q = p) then Some n else files rest p
  end.

(** The manifest of a project with main and development dependencies and
    one extra. *)
Definition manifest : toml :=
  TTable [("tool", TTable [("poetry", TTable [
    ("name", TStr "demo");
    ("version", TStr "0.1.0");
    ("authors", TList [TStr "A. Author <a@example.org>"]);
    ("license", TStr "NOT-A-REAL-LICENSE");
    ("dependencies", TTable [
       ("Python", TStr ">=3.0");
       ("foo", TList [TStr "1.0"; TStr "2.0"]);
       ("bar", TStr "^1.0")]);
    ("dev-dependencies", TTable [
       ("legacy", TTable [("version", TStr "*"); ("python", TStr "<3.0")]);
       ("pytest", TStr "^3.0")]);
    ("extras", TTable [("feature", TList [TStr "foo"; TStr "missing"])])])])].

(** A manifest whose section lacks all three required fields. *)
Definition manifest_invalid : toml :=
  TTable [("tool", TTable [("poetry", TTable [("description", TStr "x")])])].

(** A manifest without the [tool.poetry] section. *)
Definition manifest_no_section : toml :=
  TTable [("build-system", TTable [("requires", TList [TStr "setuptools"])])].

(** A manifest with a [tool] table that has no [poetry] key. *)
Definition manifest_other_tool : toml :=
  TTable [("tool", TTable [("black", TTable [])])].

(** A manifest whose [section] table declares [nm] with the plain string
    constraint [constraint]. *)
Definition manifest_with (section nm constraint : string) : toml :=
  TTable [("tool", TTable [("poetry", TTable [
    ("name", TStr "demo");
    ("version", TStr "0.1.0");
    ("authors", TList [TStr "A. Author <a@example.org>"]);
    (section, TTable [(nm, TStr constraint)])])])].

Definition documents : list (string * toml) :=
  [("manifest", manifest); ("invalid", manifest_invalid);
   ("dev-string", manifest_with "dev-dependencies" "foo" "1.0-python");
   ("main-string", manifest_with "dependencies" "foo" "1.0-python");
   ("no-section", manifest_no_section); ("other-tool", manifest_other_tool);
   ("global", TTable [("a", TInt 1); ("b", TTable [("x", TInt 1)])]);
   ("local", TTable [("b", TTable [("y", TInt 2)])]);
   ("auth", TTable [("http-basic", TTable [("private",
      TTable [("username", TStr "user"); ("password", TStr "secret")])])])].

(** A host running Python 3.9. *)
Definition host39 : Collaborators := world (3, 9) documents.

(** A host running Python 2.7. *)
Definition host27 : Collaborators := world (2, 7) documents.

(** A project directory holding the file [text] as its manifest. *)
Definition project (text : string) : FS :=
  files [(parse_path "/work/proj/pyproject.toml", File text)].

Definition cwd : Path := parse_path "/work/proj/src/pkg".


(** The project with a lock file under the old name only. *)
Definition old_lock_only : FS :=
  files [(parse_path "/work/proj/pyproject.toml", File "manifest");
         (parse_path "/work/proj/pyproject.lock", File "old lock")].

(** The project with lock files under both names. *)
Definition both_locks : FS :=
  files [(parse_path "/work/proj/pyproject.toml", File "manifest");
         (parse_path "/work/proj/pyproject.lock", File "old lock");
         (parse_path "/work/proj/poetry.lock", File "lock")].

(** A package with nothing declared yet. *)
Definition bare_package `{Collaborators} : Package :=
  {| pkg_name := TStr "demo"; pkg_version := TStr "0.1.0";
     pkg_pretty_version := TStr "0.1.0"; root_dir := parse_path "/work/proj";
     authors := []; maintainers := []; description := TStr "";
     homepage := None; repository_url := None; documentation_url := None;
     license := None; keywords := TList []; classifiers := TList [];
     readme := None; platform := None;
     python_versions := TStr "*"; requires := []; extras := [];
     build := None; include := None; exclude := None; packages := None;
     custom_urls := None |}.

(** The entries of the [tool.poetry] section of a document. *)
Definition section (doc : toml) : list (string * toml) :=
  match tool_poetry (parse_path "pyproject.toml") doc with
  | Ok (TTable entries) => entries
  | _ => []
  end.

(** A section with the required fields only. *)
Definition minimal : list (string * toml) :=
  [("name", TStr "demo"); ("version", TStr "0.1.0");
   ("authors", TList [TStr "A. Author <a@example.org>"])].

(** The manifest file of the demonstration project. *)
Definition pyproject : Path := parse_path "/work/proj/pyproject.toml".

(** A facade holding the configuration [cfg]. *)
Definition facade (cfg : list (string * toml)) : Poetry (H := host39) :=
  @mkPoetry host39 (parse_path "/work/proj/pyproject.toml") (TTable [])
    bare_package (mkLocker (parse_path "/work/proj/poetry.lock") (TTable []))
    cfg [].

(** A configuration with credentials stored for the repository [private]. *)
Definition with_credentials : list (string * toml) :=
  [("http-basic", TTable [("private",
      TTable [("username", TStr "user"); ("password", TStr "secret")])])].

(** A manifest whose main table names the interpreter twice. *)
Definition manifest_two_pythons : toml :=
  TTable [("tool", TTable [("poetry", TTable [
    ("name", TStr "demo");
    ("version", TStr "0.1.0");
    ("authors", TList [TStr "A. Author <a@example.org>"]);
    ("dependencies", TTable [
       ("python", TStr "<3.0");
       ("foo", TStr "1.0");
       ("PYTHON", TStr ">=3.0")])])])].

(** A host running Python 3.9 whose manifest is [manifest_two_pythons]. *)
Definition host_two_pythons : Collaborators :=
  world (3, 9) [("two-pythons", manifest_two_pythons)].

(** A disk holding one manifest, at the absolute location [at_]. *)
Definition disk (at_ : list string) (location : list string) : option node :=
  if decide (location = at_) then Some (File "manifest") else None.

(** The directory the process works in. *)
Definition working_directory : list string := ["home"; "user"; "work"].

End Demo.

(** * Properties *)

(** ** Strings, paths and dictionaries *)

Example lower_Python : lower "PyThOn" = "python".
Proof. reflexivity. Qed.

Example in_string_is_substring : py_in "python" (TStr "1.0-python") = Ok true.
Proof. reflexivity. Qed.

Example parents_abs :
  parents (parse_path "/a/b/c") =
  [parse_path "/a/b"; parse_path "/a"; parse_path "/"].
Proof. reflexivity. Qed.

Example parents_rel :
  parents (parse_path "a/b") = [parse_path "a"; parse_path "."].
Proof. reflexivity. Qed.

Example with_suffix_lock :
  with_suffix (parse_path "/a/pyproject.toml") ".lock"
  = Ok (parse_path "/a/pyproject.lock").
Proof. reflexivity. Qed.

Lemma append_assoc (a b c : string) : (a +:+ b) +:+ c = a +:+ (b +:+ c).
Proof.
  induction a as [|ch a IH]; [reflexivity | exact (f_equal (String ch) IH)].
Qed.

Lemma append_empty_r (a : string) : a +:+ "" = a.
Proof.
  induction a as [|ch a IH]; [reflexivity | exact (f_equal (String ch) IH)].
Qed.

Lemma eqb_false_iff (a b : string) : String.eqb a b = false <-> a <> b.
Proof. apply String.eqb_neq. Qed.

(** Joining a directory with a plain file name appends one component. *)
Lemma joinpath_pyproject (d : Path) :
  d </> "pyproject.toml" = mkPath (anchor d) (parts d ++ ["pyproject.toml"]).
Proof. reflexivity. Qed.

Lemma joinpath_poetry_lock (d : Path) :
  d </> "poetry.lock" = mkPath (anchor d) (parts d ++ ["poetry.lock"]).
Proof. reflexivity. Qed.

Lemma name_pyproject (d : Path) : name (d </> "pyproject.toml") = "pyproject.toml".
Proof. rewrite joinpath_pyproject. unfold name. simpl. by rewrite last_snoc. Qed.

Lemma parent_pyproject (d : Path) : parent (d </> "pyproject.toml") = d.
Proof.
  rewrite joinpath_pyproject. unfold parent. simpl.
  rewrite removelast_last. by destruct d.
Qed.

Lemma with_suffix_pyproject (d : Path) :
  with_suffix (d </> "pyproject.toml") ".lock"
  = Ok (mkPath (anchor d) (parts d ++ ["pyproject.lock"])).
Proof.
  unfold with_suffix. rewrite name_pyproject, joinpath_pyproject. simpl.
  rewrite removelast_last. reflexivity.
Qed.

(** ** The manifest locator *)

Section Locator.

Variable fs : FS.

Lemma locate_loop_found (candidates : list Path) (poetry_file : Path) :
  locate_loop fs candidates = Some poetry_file ->
  exists pre d post,
    candidates = pre ++ d :: post /\
    Forall (fun c => path_exists fs (c </> "pyproject.toml") = false) pre /\
    path_exists fs (d </> "pyproject.toml") = true /\
    poetry_file = d </> "pyproject.toml".
Proof.
  induction candidates as [|c rest IH]; simpl; [discriminate |].
  destruct (path_exists fs (c </> "pyproject.toml")) eqn:Hc.
  - intros [= <-]. exists [], c, rest. repeat split; [constructor | exact Hc].
  - intros Hrest. destruct (IH Hrest) as (pre & d & post & -> & Hpre & Hd & ->).
    exists (c :: pre), d, post. repeat split; [by constructor | exact Hd].
Qed.

Lemma locate_loop_none (candidates : list Path) :
  locate_loop fs candidates = None <->
  Forall (fun c => path_exists fs (c </> "pyproject.toml") = false) candidates.
Proof.
  induction candidates as [|c rest IH]; simpl.
  - split; [constructor | reflexivity].
  - destruct (path_exists fs (c </> "pyproject.toml")) eqn:Hc.
    + split; [discriminate |]. intros Hall. inversion Hall; congruence.
    + rewrite IH. split; [by constructor | by inversion 1].
Qed.

(** Every candidate after the first is the parent directory of the one
    before it, which has at least one component more. *)
Lemma candidates_child_to_root (cwd : Path) (i : nat) (d : Path) :
  (cwd :: parents cwd) !! S i = Some d ->
  exists c, (cwd :: parents cwd) !! i = Some c /\ d = parent c /\
            length (parts c) = S (length (parts d)).
Proof.
  destruct cwd as [a ps]. simpl. unfold parents. simpl.
  rewrite list_lookup_fmap. intros Hd.
  destruct (seq 0 (length ps) !! i) as [k|] eqn:Hk; [|discriminate].
  apply lookup_seq in Hk as [-> Hi]. simpl in Hd. injection Hd as <-.
  destruct i as [|j]; simpl.
  - exists (mkPath a ps). split; [reflexivity |]. unfold parent. simpl.
    rewrite removelast_firstn_len. split.
    + do 2 f_equal. lia.
    + rewrite length_take. lia.
  - rewrite list_lookup_fmap.
    assert (seq 0 (length ps) !! j = Some j) as ->
      by (apply lookup_seq; split; [reflexivity | lia]).
    simpl. eexists. split; [reflexivity |]. unfold parent. simpl. split.
    + f_equal. replace (length ps - j - 1) with (S (length ps - S j - 1)) by lia.
      rewrite removelast_firstn by lia. reflexivity.
    + rewrite !length_take. lia.
Qed.

(** The search ends at the root: the last candidate has no component. *)
Lemma candidates_end_at_root (cwd : Path) :
  exists r, last (cwd :: parents cwd) = Some r /\ parts r = [] /\
            anchor r = anchor cwd.
Proof.
  destruct cwd as [a ps]. unfold parents. simpl parts. simpl anchor.
  destruct ps as [|p ps] using rev_ind.
  - exists (mkPath a []). repeat split.
  - clear IHps. rewrite length_app. simpl length.
    rewrite Nat.add_1_r, seq_S, map_app. simpl.
    rewrite app_comm_cons, last_snoc. eexists. split; [reflexivity |].
    simpl. split; [| reflexivity].
    replace (S (length ps) - length ps - 1) with 0 by lia. reflexivity.
Qed.

(** C6, as the code has it: the locator looks at the starting path and
    then at its lexical parents as [Path.parents] gives them, each
    candidate being the one before with its last component removed, down to
    the path without components (the root of an absolute path, [.] for a
    relative one; a [..] component is a component like any other). It
    returns the manifest path of the first candidate that holds one, and
    fails with [ManifestNotFound] when none of them does. *)
Theorem locate_first_match (cwd : Path) :
  let candidates := cwd :: parents cwd in
  (forall i d, candidates !! S i = Some d ->
     exists c, candidates !! i = Some c /\ d = parent c /\
               length (parts c) = S (length (parts d))) /\
  (exists r, last candidates = Some r /\ parts r = [] /\ anchor r = anchor cwd) /\
  ((exists pre d post,
      candidates = pre ++ d :: post /\
      Forall (fun c => path_exists fs (c </> "pyproject.toml") = false) pre /\
      path_exists fs (d </> "pyproject.toml") = true /\
      locate fs cwd = Ok (d </> "pyproject.toml"))
   \/
   (Forall (fun c => path_exists fs (c </> "pyproject.toml") = false) candidates /\
    locate fs cwd = Raise (ManifestNotFound cwd))).
Proof.
  intros candidates. split; [apply candidates_child_to_root |].
  split; [apply candidates_end_at_root |].
  unfold locate. change ([cwd] ++ parents cwd) with candidates.
  destruct (locate_loop fs candidates) as [poetry_file|] eqn:Hloop.
  - left. destruct (locate_loop_found _ _ Hloop) as (pre & d & post & ? & ? & ? & ->).
    by exists pre, d, post.
  - right. split; [by apply locate_loop_none | reflexivity].
Qed.

(** What [locate] returns is a [pyproject.toml] in some directory. *)
Lemma locate_Ok (cwd poetry_file : Path) :
  locate fs cwd = Ok poetry_file ->
  exists d, poetry_file = d </> "pyproject.toml" /\
            path_exists fs poetry_file = true.
Proof.
  unfold locate. destruct (locate_loop fs _) as [f|] eqn:Hloop; [|discriminate].
  intros [= <-]. destruct (locate_loop_found _ _ Hloop) as (_ & d & _ & _ & _ & ? & ->).
  by exists d.
Qed.

End Locator.

Example locate_in_ancestor :
  locate (Demo.project "manifest") Demo.cwd
  = Ok (parse_path "/work/proj/pyproject.toml").
Proof. reflexivity. Qed.

Example locate_nearest :
  locate (Demo.files [(parse_path "/work/pyproject.toml", File "outer");
                      (parse_path "/work/proj/pyproject.toml", File "inner")])
         Demo.cwd
  = Ok (parse_path "/work/proj/pyproject.toml").
Proof. reflexivity. Qed.

Example locate_nowhere :
  locate (Demo.files [(parse_path "/other/pyproject.toml", File "manifest")])
         Demo.cwd
  = Raise (RuntimeError "Poetry could not find a pyproject.toml file in /work/proj/src/pkg or its parents").
Proof. reflexivity. Qed.

(** ** Section lookup and validity *)

Section Validity.

Context `{Collaborators}.

Lemma error_lines_foldr (message : string) (errs : list string) :
  error_lines message errs
  = message +:+ foldr (fun e rest => ("  - " +:+ e +:+ nl) +:+ rest) "" errs.
Proof.
  revert message. induction errs as [|e errs IH]; intros message; simpl.
  - by rewrite append_empty_r.
  - rewrite IH. apply append_assoc.
Qed.

(** Every error has its line in the accumulated text. *)
Lemma foldr_lines_mention (errs : list string) (e : string) :
  e ∈ errs ->
  exists pre post,
    foldr (fun e rest => ("  - " +:+ e +:+ nl) +:+ rest) "" errs
    = pre +:+ ("  - " +:+ e +:+ nl) +:+ post.
Proof.
  induction 1 as [e errs | e e' errs _ IH]; simpl.
  - exists "". eexists. reflexivity.
  - destruct IH as (pre & post & ->).
    exists (("  - " +:+ e' +:+ nl) +:+ pre), post. apply eq_sym, append_assoc.
Qed.

Lemma check_errors (cfg : toml) :
  errors (check cfg) = validate_object cfg "poetry-schema".
Proof. reflexivity. Qed.

(** C5: a manifest document without a [tool] key, or whose [tool] table
    has no [poetry] key, makes [create] fail with [ManifestSectionMissing];
    nothing is returned besides the exception and the file system is left
    as it was. *)
Theorem create_section_missing (fs : FS) (cwd poetry_file : Path)
    (entries : list (string * toml)) :
  locate fs cwd = Ok poetry_file ->
  read fs poetry_file = Ok (TTable entries) ->
  (assoc "tool" entries = None \/
   exists tool, assoc "tool" entries = Some (TTable tool) /\
                assoc "poetry" tool = None) ->
  create fs cwd = (fs, Raise (ManifestSectionMissing poetry_file)) /\
  ManifestSectionMissing poetry_file
  = RuntimeError "[tool.poetry] section not found in pyproject.toml".
Proof.
  intros Hlocate Hread Hmissing. split.
  - unfold create, create_package. rewrite Hlocate. simpl. rewrite Hread. simpl.
    destruct Hmissing as [Hnone | (tool & Htool & Hnone)].
    + unfold tool_poetry. simpl. rewrite Hnone. reflexivity.
    + unfold tool_poetry. simpl. rewrite Htool. simpl. rewrite Hnone. reflexivity.
  - destruct (locate_Ok _ _ _ Hlocate) as (d & -> & _).
    unfold ManifestSectionMissing. by rewrite name_pyproject.
Qed.

(** C4: when the schema validation of the [tool.poetry] section returns
    errors, [create] fails with [ManifestInvalid], whose message has one
    line for each of the errors, in order; the failure comes before any
    field of the section is read (whatever the section holds), and nothing
    is returned besides the exception. *)
Theorem create_invalid (fs : FS) (cwd poetry_file : Path)
    (entries tool : list (string * toml)) (cfg : toml) (errs : list string) :
  locate fs cwd = Ok poetry_file ->
  read fs poetry_file = Ok (TTable entries) ->
  assoc "tool" entries = Some (TTable tool) ->
  assoc "poetry" tool = Some cfg ->
  validate_object cfg "poetry-schema" = errs ->
  errs <> [] ->
  create fs cwd = (fs, Raise (ManifestInvalid errs)) /\
  ManifestInvalid errs
  = RuntimeError (("The Poetry configuration is invalid:" +:+ nl)
                  +:+ foldr (fun e rest => ("  - " +:+ e +:+ nl) +:+ rest) "" errs) /\
  (forall e, e ∈ errs ->
     exists pre post,
       ManifestInvalid errs = RuntimeError (pre +:+ ("  - " +:+ e +:+ nl) +:+ post)).
Proof.
  intros Hlocate Hread Htool Hpoetry Hval Herrs.
  assert (ManifestInvalid errs
          = RuntimeError (("The Poetry configuration is invalid:" +:+ nl)
              +:+ foldr (fun e rest => ("  - " +:+ e +:+ nl) +:+ rest) "" errs))
    as Hmsg.
  { unfold ManifestInvalid. rewrite error_lines_foldr. reflexivity. }
  split; [| split; [exact Hmsg |]].
  - unfold create, create_package. rewrite Hlocate. simpl. rewrite Hread. simpl.
    unfold tool_poetry. simpl. rewrite Htool. simpl. rewrite Hpoetry. simpl.
    unfold check_validity. rewrite check_errors, Hval.
    destruct errs; [congruence | reflexivity].
  - intros e He. rewrite Hmsg.
    destruct (foldr_lines_mention errs e He) as (pre & post & ->).
    exists (("The Poetry configuration is invalid:" +:+ nl) +:+ pre), post.
    reflexivity.
Qed.

End Validity.

Lemma create_section_missing_witness :
  create (H := Demo.host39) (Demo.project "no-section") Demo.cwd
  = (Demo.project "no-section",
     Raise (ManifestSectionMissing (parse_path "/work/proj/pyproject.toml"))) /\
  ManifestSectionMissing (parse_path "/work/proj/pyproject.toml")
  = RuntimeError "[tool.poetry] section not found in pyproject.toml".
Proof.
  apply (create_section_missing (H := Demo.host39) _ _ _
           [("build-system", TTable [("requires", TList [TStr "setuptools"])])]).
  - reflexivity.
  - reflexivity.
  - left. reflexivity.
Defined.

Example create_other_tool :
  create (H := Demo.host39) (Demo.project "other-tool") Demo.cwd
  = (Demo.project "other-tool",
     Raise (RuntimeError "[tool.poetry] section not found in pyproject.toml")).
Proof. reflexivity. Qed.

Lemma create_invalid_witness :
  create (H := Demo.host39) (Demo.project "invalid") Demo.cwd
  = (Demo.project "invalid",
     Raise (RuntimeError
       ("The Poetry configuration is invalid:" +:+ nl +:+
        "  - 'name' is a required property" +:+ nl +:+
        "  - 'version' is a required property" +:+ nl +:+
        "  - 'authors' is a required property" +:+ nl))).
Proof.
  refine (proj1 (create_invalid (H := Demo.host39)
                   (Demo.project "invalid") Demo.cwd
                   (parse_path "/work/proj/pyproject.toml")
                   _ _ (TTable [("description", TStr "x")]) _ _ _ _ _ eq_refl _)).
  - reflexivity.
  - reflexivity.
  - reflexivity.
  - reflexivity.
  - discriminate.
Defined.

(** ** The main dependency table *)

Section Dependencies.

Context `{Collaborators}.

Lemma requires_add_dependency (package : Package) nm constraint category :
  requires (add_dependency package nm constraint category)
  = requires package ++ [mkDependency nm constraint category []].
Proof. reflexivity. Qed.

Lemma requires_add_each (package : Package) nm category constraints :
  requires (fold_left (fun package _constraint =>
                         add_dependency package nm _constraint category)
                      constraints package)
  = requires package ++ map (fun c => mkDependency nm c category []) constraints.
Proof.
  revert package. induction constraints as [|c cs IH]; intros package; simpl.
  - by rewrite app_nil_r.
  - rewrite IH, requires_add_dependency, <- app_assoc. reflexivity.
Qed.

Lemma python_versions_add_each (package : Package) nm category constraints :
  python_versions (fold_left (fun package _constraint =>
                                add_dependency package nm _constraint category)
                             constraints package)
  = python_versions package.
Proof.
  revert package. induction constraints as [|c cs IH]; intros package; simpl;
    [reflexivity | by rewrite IH].
Qed.

(** One pass of the loop of lines 115-126: an entry of the main table
    named [python], in any letter case, sets the Python-version requirement
    of the package and adds nothing to [requires]; any other entry adds one
    Dependency of its name and category ["main"] when its constraint is not
    a list, and one per element, [k] in all, when it is a list of length
    [k]. *)
Theorem dependencies_entry_decoded (package : Package) (nm : string)
    (constraint : toml) :
  let package' := dependencies_entry package (nm, constraint) in
  (lower nm = "python" ->
     python_versions package' = constraint /\
     requires package' = requires package) /\
  (lower nm <> "python" -> forall constraints,
     constraint = TList constraints ->
     requires package'
     = requires package ++ map (fun c => mkDependency nm c "main" []) constraints /\
     length (requires package') = length (requires package) + length constraints) /\
  (lower nm <> "python" -> is_list constraint = false ->
     requires package' = requires package ++ [mkDependency nm constraint "main" []]).
Proof.
  simpl. split; [| split].
  - intros Hname. rewrite Hname. split; reflexivity.
  - intros Hname constraints ->. apply eqb_false_iff in Hname. rewrite Hname.
    rewrite requires_add_each, length_app, length_map. split; reflexivity.
  - intros Hname Hscalar. apply eqb_false_iff in Hname. rewrite Hname.
    destruct constraint; try reflexivity. discriminate.
Qed.

(** The whole table: [requires] grows by what each entry stands for, in
    the order of the table. *)
Lemma requires_dependencies (entries : list (string * toml)) (package : Package) :
  requires (fold_left dependencies_entry entries package)
  = requires package ++ flat_map entry_requires entries.
Proof.
  revert package. induction entries as [|[nm c] entries IH]; intros package; simpl.
  - by rewrite app_nil_r.
  - rewrite IH, app_assoc. f_equal. unfold entry_requires. simpl.
    destruct (String.eqb (lower nm) "python"); [by rewrite app_nil_r |].
    destruct c; try reflexivity. apply requires_add_each.
Qed.

End Dependencies.

Lemma dependencies_entry_decoded_witness :
  (python_versions
     (dependencies_entry (H := Demo.host39) Demo.bare_package
        ("PyThOn", TStr ">=3.0")) = TStr ">=3.0" /\
   requires
     (dependencies_entry (H := Demo.host39) Demo.bare_package
        ("PyThOn", TStr ">=3.0")) = []) /\
  requires
    (dependencies_entry (H := Demo.host39) Demo.bare_package
       ("foo", TList [TStr "1.0"; TStr "2.0"]))
  = [mkDependency "foo" (TStr "1.0") "main" [];
     mkDependency "foo" (TStr "2.0") "main" []] /\
  requires
    (dependencies_entry (H := Demo.host39) Demo.bare_package ("bar", TStr "^1.0"))
  = [mkDependency "bar" (TStr "^1.0") "main" []].
Proof.
  pose proof (dependencies_entry_decoded (H := Demo.host39) Demo.bare_package
                "PyThOn" (TStr ">=3.0")) as Hpython.
  pose proof (dependencies_entry_decoded (H := Demo.host39) Demo.bare_package
                "foo" (TList [TStr "1.0"; TStr "2.0"])) as Hlist.
  pose proof (dependencies_entry_decoded (H := Demo.host39) Demo.bare_package
                "bar" (TStr "^1.0")) as Hscalar.
  cbv zeta in Hpython, Hlist, Hscalar.
  destruct Hpython as (Hpython & _ & _).
  destruct Hlist as (_ & Hlist & _).
  destruct Hscalar as (_ & _ & Hscalar).
  split; [apply Hpython; reflexivity | split].
  - apply (Hlist ltac:(discriminate) _ eq_refl).
  - apply Hscalar; [discriminate | reflexivity].
Defined.

(** ** The development dependency table *)

Section DevDependencies.

Context `{Collaborators}.

Variable v : Version.

(** A table constraint with a [python] key is kept exactly when the host
    version satisfies the sub-constraint. *)
Lemma dev_constraint_python (nm : string) (package : Package)
    (fields : list (string * toml)) (sub : toml) (python_constraint : Constraint) :
  assoc "python" fields = Some sub ->
  parse_single_constraint sub = Ok python_constraint ->
  dev_dependencies_constraint v nm package (TTable fields)
  = Ok (if allows python_constraint v
        then add_dependency package nm (TTable fields) "dev"
        else package).
Proof.
  intros Hsub Hparse. unfold dev_dependencies_constraint. simpl.
  rewrite Hsub. simpl. rewrite Hparse. simpl.
  by destruct (allows python_constraint v).
Qed.

(** A table constraint without a [python] key is always kept. *)
Lemma dev_constraint_no_python (nm : string) (package : Package)
    (fields : list (string * toml)) :
  assoc "python" fields = None ->
  dev_dependencies_constraint v nm package (TTable fields)
  = Ok (add_dependency package nm (TTable fields) "dev").
Proof.
  intros Hnone. unfold dev_dependencies_constraint. simpl. by rewrite Hnone.
Qed.

(** A string constraint is kept when the text does not contain
    [python]. *)
Lemma dev_constraint_string (nm : string) (package : Package) (s : string) :
  str_contains "python" s = false ->
  dev_dependencies_constraint v nm package (TStr s)
  = Ok (add_dependency package nm (TStr s) "dev").
Proof.
  intros Hnone. unfold dev_dependencies_constraint. simpl. by rewrite Hnone.
Qed.

(** A string constraint whose text contains [python] passes the membership
    test of line 135 and cannot be indexed on line 136. *)
Lemma dev_constraint_string_python (nm : string) (package : Package) (s : string) :
  str_contains "python" s = true ->
  dev_dependencies_constraint v nm package (TStr s) = Raise TypeError.
Proof.
  intros Hsome. unfold dev_dependencies_constraint. simpl. by rewrite Hsome.
Qed.

End DevDependencies.

(** The example of the specification: [{python: "<3.0"}] is left out on a
    host running Python 3.9 and kept on one running 2.7. *)
Example dev_dependency_python_3_9 :
  map dep_name <$> (requires <$> (package <$>
    (create (H := Demo.host39) (Demo.project "manifest") Demo.cwd).2))
  = Ok ["foo"; "foo"; "bar"; "pytest"].
Proof. reflexivity. Qed.

Example dev_dependency_python_2_7 :
  map (fun d => (dep_name d, dep_category d)) <$> (requires <$> (package <$>
    (create (H := Demo.host27) (Demo.project "manifest") Demo.cwd).2))
  = Ok [("foo", "main"); ("foo", "main"); ("bar", "main");
        ("legacy", "dev"); ("pytest", "dev")].
Proof. reflexivity. Qed.

(** C3: a development dependency declared with a plain string constraint
    has no python sub-constraint and is to become a Dependency of category
    ["dev"]; when the string contains the text [python], [create] raises
    [TypeError] instead, and the same entry in the main table is accepted. *)
Theorem dev_dependency_string_with_python :
  create (H := Demo.host39) (Demo.project "dev-string") Demo.cwd
  = (Demo.project "dev-string", Raise TypeError) /\
  requires <$> (package <$>
    (create (H := Demo.host39) (Demo.project "main-string") Demo.cwd).2)
  = Ok [mkDependency "foo" (TStr "1.0-python") "main" []].
Proof. split; reflexivity. Qed.

(** ** Loops *)

Lemma for_each_cons {A S : Type} (body : S -> A -> result S) (x : A)
    (xs : list A) (s : S) :
  for_each body (x :: xs) s = body s x ≫= for_each body xs.
Proof. reflexivity. Qed.

Lemma bind_Ok {A B : Type} (a : A) (f : A -> result B) : Ok a ≫= f = f a.
Proof. reflexivity. Qed.

(** ** Extras *)

Section Dictionaries.

Context {V : Type}.

Lemma assoc_None (k : string) (kvs : list (string * V)) :
  assoc k kvs = None <-> k ∉ map fst kvs.
Proof.
  induction kvs as [|[k' v] kvs IH]; simpl.
  - split; [intros _; apply not_elem_of_nil | reflexivity].
  - rewrite not_elem_of_cons. destruct (String.eqb k k') eqn:Hk.
    + apply String.eqb_eq in Hk. split; [discriminate | tauto].
    + apply String.eqb_neq in Hk. rewrite IH. tauto.
Qed.

Lemma dict_set_fresh (k : string) (v : V) (kvs : list (string * V)) :
  k ∉ map fst kvs -> dict_set k v kvs = kvs ++ [(k, v)].
Proof.
  induction kvs as [|[k' v'] kvs IH]; simpl; [reflexivity |].
  rewrite not_elem_of_cons. intros [Hne Hrest].
  apply String.eqb_neq in Hne. rewrite Hne, IH by exact Hrest. reflexivity.
Qed.

Lemma dict_append_last (k : string) (x : V) (xs : list V)
    (kvs : list (string * list V)) :
  k ∉ map fst kvs ->
  dict_append k x (kvs ++ [(k, xs)]) = kvs ++ [(k, xs ++ [x])].
Proof.
  induction kvs as [|[k' v'] kvs IH]; simpl.
  - intros _. by rewrite String.eqb_refl.
  - rewrite not_elem_of_cons. intros [Hne Hrest].
    apply String.eqb_neq in Hne. rewrite Hne, IH by exact Hrest. reflexivity.
Qed.

End Dictionaries.

Lemma add_extras_nil (dep : Dependency) : add_extras dep [] = dep.
Proof. destruct dep. unfold add_extras. simpl. by rewrite app_nil_r. Qed.

Lemma add_extras_app (dep : Dependency) (a b : list string) :
  add_extras (add_extras dep a) b = add_extras dep (a ++ b).
Proof. unfold add_extras. simpl. by rewrite app_assoc. Qed.

Lemma first_index_lt (r : string) (deps : list Dependency) (i : nat) :
  first_index r deps = Some i -> i < length deps.
Proof.
  revert i. induction deps as [|d deps IH]; intros i; simpl; [discriminate |].
  destruct (String.eqb (dep_name d) r); [intros [= <-]; lia |].
  destruct (first_index r deps) as [j|]; simpl; [|discriminate].
  intros [= <-]. specialize (IH j eq_refl). lia.
Qed.

(** The first match is a dependency of that name, and none before it has
    the name. *)
Lemma first_index_Some (r : string) (deps : list Dependency) (i : nat) :
  first_index r deps = Some i <->
  (exists dep, deps !! i = Some dep /\ dep_name dep = r) /\
  (forall j dep, j < i -> deps !! j = Some dep -> dep_name dep <> r).
Proof.
  revert i. induction deps as [|d deps IH]; intros i; simpl.
  - split; [discriminate | intros [(dep & Hdep & _) _]; discriminate].
  - destruct (String.eqb (dep_name d) r) eqn:Hd.
    + apply String.eqb_eq in Hd. split.
      * intros [= <-]. split; [by exists d | intros; lia].
      * intros [_ Hfirst]. destruct i as [|i]; [reflexivity |].
        exfalso. apply (Hfirst 0 d); [lia | reflexivity | exact Hd].
    + apply String.eqb_neq in Hd. split.
      * destruct (first_index r deps) as [j|] eqn:Hj; simpl; [|discriminate].
        intros [= <-]. destruct (proj1 (IH j) eq_refl) as [Hat Hfirst].
        split; [exact Hat |].
        intros [|k] dep Hk; simpl; [by intros [= <-] |].
        apply Hfirst. lia.
      * intros [(dep & Hdep & Hname) Hfirst]. destruct i as [|i].
        { simpl in Hdep. congruence. }
        assert (first_index r deps = Some i) as ->; [|reflexivity].
        apply IH. split; [by exists dep |].
        intros j dep' Hj Hdep'. apply (Hfirst (S j) dep'); [lia | exact Hdep'].
Qed.

Lemma first_index_None (r : string) (deps : list Dependency) :
  first_index r deps = None <-> Forall (fun dep => dep_name dep <> r) deps.
Proof.
  induction deps as [|d deps IH]; simpl.
  - split; [constructor | reflexivity].
  - destruct (String.eqb (dep_name d) r) eqn:Hd.
    + apply String.eqb_eq in Hd. split; [discriminate |].
      intros Hall. inversion Hall; congruence.
    + apply String.eqb_neq in Hd.
      destruct (first_index r deps); simpl.
      * split; [discriminate |]. intros Hall. inversion Hall as [|? ? _ Hrest].
        apply IH in Hrest. discriminate.
      * split; [|reflexivity]. intros _. constructor; [exact Hd | by apply IH].
Qed.

(** The first match depends on the names only. *)
Lemma first_index_names (r : string) (deps deps' : list Dependency) :
  map dep_name deps = map dep_name deps' ->
  first_index r deps = first_index r deps'.
Proof.
  revert deps'. induction deps as [|d deps IH]; intros [|d' deps']; simpl;
    try discriminate; [reflexivity |].
  intros [= Hd Hrest]. rewrite Hd, (IH deps' Hrest). reflexivity.
Qed.

Lemma names_imap_add_extras (M : nat -> list string) (deps : list Dependency) :
  map dep_name (imap (fun i dep => add_extras dep (M i)) deps) = map dep_name deps.
Proof.
  revert M. induction deps as [|d deps IH]; intros M; simpl; [reflexivity |].
  f_equal. apply IH.
Qed.

(** The search of lines 149-154 in closed form. *)
Lemma extras_search_first (e r : string) (deps : list Dependency) (k : nat) :
  extras_search e r deps k
  = (match first_index r deps with
     | Some i => alter (fun dep => add_extras dep [e]) i deps
     | None => deps
     end,
     (fun i => k + i) <$> first_index r deps).
Proof.
  revert k. induction deps as [|d deps IH]; intros k; simpl; [reflexivity |].
  destruct (String.eqb (dep_name d) r).
  - simpl. do 2 f_equal. lia.
  - rewrite IH. destruct (first_index r deps) as [i|]; simpl; [|reflexivity].
    do 2 f_equal. lia.
Qed.

Section Extras.

Context `{Collaborators}.

Lemma recorded_ext (deps0 : list Dependency) (M M' : nat -> list string) :
  (forall i, M i = M' i) -> recorded deps0 M = recorded deps0 M'.
Proof. intros HM. apply imap_ext. intros i dep _. by rewrite HM. Qed.

Lemma recorded_nothing (deps0 : list Dependency) :
  recorded deps0 (fun _ => []) = deps0.
Proof.
  apply list_eq. intros i. unfold recorded. rewrite list_lookup_imap.
  destruct (deps0 !! i) as [dep|]; simpl; [|reflexivity].
  by rewrite add_extras_nil.
Qed.

Lemma first_index_recorded (r : string) deps0 M :
  first_index r (recorded deps0 M) = first_index r deps0.
Proof. apply first_index_names, names_imap_add_extras. Qed.

Lemma recorded_alter (deps0 : list Dependency) M (e : string) (j : nat) :
  alter (fun dep => add_extras dep [e]) j (recorded deps0 M)
  = recorded deps0 (fun i => M i ++ if decide (Some j = Some i) then [e] else []).
Proof.
  apply list_eq. intros i. unfold recorded. rewrite list_lookup_imap.
  destruct (decide (j = i)) as [<- | Hne].
  - rewrite list_lookup_alter_eq, list_lookup_imap.
    destruct (deps0 !! j) as [dep|]; simpl; [|reflexivity].
    rewrite add_extras_app, decide_True by reflexivity. reflexivity.
  - rewrite list_lookup_alter_ne, list_lookup_imap by exact Hne.
    destruct (deps0 !! i) as [dep|]; simpl; [|reflexivity].
    rewrite decide_False by congruence. by rewrite app_nil_r.
Qed.

(** One requirement of an extra [e] whose entry is the last of [extras]. *)
Lemma extras_requirement_step deps0 M ex (e : string) refs (p : Package)
    (r : string) :
  requires p = recorded deps0 M ->
  extras p = ex ++ [(e, refs)] ->
  e ∉ map fst ex ->
  exists p',
    extras_requirement e p (TStr r) = Ok p' /\
    requires p'
    = recorded deps0
        (fun i => M i ++ if decide (first_index r deps0 = Some i) then [e] else []) /\
    extras p' = ex ++ [(e, refs ++ option_list (first_index r deps0))].
Proof.
  intros Hreq Hex Hfresh. unfold extras_requirement.
  rewrite extras_search_first, Hreq, first_index_recorded.
  destruct (first_index r deps0) as [j|]; simpl.
  - eexists. split; [reflexivity |]. simpl. split.
    + apply recorded_alter.
    + rewrite Hex. by apply dict_append_last.
  - eexists. split; [reflexivity |]. simpl. split.
    + apply recorded_ext. intros i. by rewrite app_nil_r.
    + by rewrite Hex, app_nil_r.
Qed.

(** All the requirements of one extra. *)
Lemma extras_requirements_loop deps0 (e : string) ex (reqs : list string) :
  e ∉ map fst ex ->
  forall M refs (p : Package),
  requires p = recorded deps0 M ->
  extras p = ex ++ [(e, refs)] ->
  exists p',
    for_each (extras_requirement e) (map TStr reqs) p = Ok p' /\
    requires p'
    = recorded deps0
        (fun i => M i ++ flat_map (fun r => if decide (first_index r deps0 = Some i)
                                            then [e] else []) reqs) /\
    extras p' = ex ++ [(e, refs ++ omap (fun r => first_index r deps0) reqs)].
Proof.
  intros Hfresh. induction reqs as [|r reqs IH]; intros M refs p Hreq Hex.
  - exists p. split; [reflexivity |]. simpl. split.
    + rewrite Hreq. apply recorded_ext. intros i. by rewrite app_nil_r.
    + by rewrite Hex, app_nil_r.
  - destruct (extras_requirement_step deps0 M ex e refs p r Hreq Hex Hfresh)
      as (p1 & Hstep & Hreq1 & Hex1).
    destruct (IH _ _ p1 Hreq1 Hex1) as (p' & Hrest & Hreq' & Hex').
    exists p'. split; [| split].
    + change (map TStr (r :: reqs)) with (TStr r :: map TStr reqs).
      by rewrite for_each_cons, Hstep, bind_Ok.
    + rewrite Hreq'. apply recorded_ext. intros i. simpl. by rewrite app_assoc.
    + rewrite Hex'. do 3 f_equal. rewrite <- app_assoc. f_equal.
      simpl. by destruct (first_index r deps0).
Qed.

(** One entry of the table, under a name not seen before. *)
Lemma extras_entry_step deps0 M ex (p : Package) (entry : string * list string) :
  requires p = recorded deps0 M ->
  extras p = ex ->
  fst entry ∉ map fst ex ->
  exists p',
    extras_entry p (fst entry, TList (map TStr (snd entry))) = Ok p' /\
    requires p'
    = recorded deps0 (fun i => M i ++ extras_reaching deps0 [entry] i) /\
    extras p'
    = ex ++ [(fst entry, omap (fun r => first_index r deps0) (snd entry))].
Proof.
  intros Hreq Hex Hfresh.
  destruct (extras_requirements_loop deps0 (fst entry) ex (snd entry) Hfresh M []
              (set_extras p (dict_set (fst entry) [] (extras p))))
    as (p' & Hrun & Hreq' & Hex').
  - exact Hreq.
  - simpl. rewrite Hex. by apply dict_set_fresh.
  - exists p'. split; [exact Hrun |]. split; [|exact Hex'].
    rewrite Hreq'. apply recorded_ext. intros i.
    unfold extras_reaching. simpl. by rewrite app_nil_r.
Qed.

(** The whole table. *)
Lemma extras_entries_loop deps0 (entries : list (string * list string)) :
  forall M ex (p : Package),
  requires p = recorded deps0 M ->
  extras p = ex ->
  NoDup (map fst ex ++ map fst entries) ->
  exists p',
    for_each extras_entry
      (map (fun entry => (fst entry, TList (map TStr (snd entry)))) entries) p
    = Ok p' /\
    requires p' = recorded deps0 (fun i => M i ++ extras_reaching deps0 entries i) /\
    extras p'
    = ex ++ map (fun entry =>
                   (fst entry, omap (fun r => first_index r deps0) (snd entry)))
                entries.
Proof.
  induction entries as [|entry entries IH]; intros M ex p Hreq Hex Hnodup.
  - exists p. split; [reflexivity |]. simpl. split.
    + rewrite Hreq. apply recorded_ext. intros i. by rewrite app_nil_r.
    + by rewrite app_nil_r.
  - simpl in Hnodup. apply NoDup_app in Hnodup as (Hnd_ex & Hdisj & Hnd_entries).
    apply NoDup_cons in Hnd_entries as [Hnew Hnd_rest].
    destruct (extras_entry_step deps0 M ex p entry Hreq Hex)
      as (p1 & Hstep & Hreq1 & Hex1).
    { intros Hin. apply (Hdisj _ Hin). left. }
    destruct (IH _ _ p1 Hreq1 Hex1) as (p' & Hrest & Hreq' & Hex').
    { rewrite map_app. simpl. rewrite <- app_assoc. simpl.
      apply NoDup_app. split; [exact Hnd_ex |]. split.
      - exact Hdisj.
      - apply NoDup_cons. by split. }
    exists p'. split; [| split].
    + rewrite map_cons, for_each_cons, Hstep, bind_Ok. exact Hrest.
    + rewrite Hreq'. apply recorded_ext. intros i.
      unfold extras_reaching. simpl. rewrite app_nil_r. by rewrite app_assoc.
    + rewrite Hex', <- app_assoc. reflexivity.
Qed.

End Extras.

Section ExtrasTable.

Context `{Collaborators}.

Lemma assoc_elem_of {V : Type} (k : string) (v : V) (kvs : list (string * V)) :
  NoDup (map fst kvs) -> (k, v) ∈ kvs -> assoc k kvs = Some v.
Proof.
  induction kvs as [|[k' v'] kvs IH]; simpl; [by intros _ ?%elem_of_nil |].
  rewrite NoDup_cons, elem_of_cons. intros [Hnew Hnd] [[= <- <-] | Hin].
  - by rewrite String.eqb_refl.
  - destruct (String.eqb k k') eqn:Hk; [|by apply IH].
    apply String.eqb_eq in Hk as <-. exfalso. apply Hnew.
    apply list_elem_of_fmap. by exists (k, v).
Qed.

Lemma omap_all_None {A B : Type} (f : A -> option B) (l : list A) :
  Forall (fun x => f x = None) l -> omap f l = [].
Proof. induction 1 as [|x l Hx _ IH]; simpl; [reflexivity | by rewrite Hx]. Qed.

(** C1, as the code has it: for an extras table of name lists with
    distinct extra names, the extras step succeeds; each extra is mapped, in
    the order of the table, to the positions in [requires] of the first
    dependency named by each of its requirements, in the order of its list,
    a requirement that names no dependency contributing nothing; and every
    dependency keeps its name, constraint and category and gets appended to
    its [in_extras] the extras that reach it that way. No dependency is
    added; an extra none of whose requirements names a dependency is mapped
    to the empty list. *)
Theorem extras_decoded (package : Package) (cfg : list (string * toml))
    (entries : list (string * list string)) :
  assoc "extras" cfg = Some (extras_table entries) ->
  NoDup (map fst entries) ->
  extras package = [] ->
  exists package',
    load_extras package (TTable cfg) = Ok package' /\
    extras package'
    = map (fun entry =>
             (fst entry,
              omap (fun r => first_index r (requires package)) (snd entry)))
          entries /\
    requires package'
    = imap (fun i dep =>
              add_extras dep (extras_reaching (requires package) entries i))
           (requires package) /\
    (forall e reqs,
       (e, reqs) ∈ entries ->
       Forall (fun r => first_index r (requires package) = None) reqs ->
       assoc e (extras package') = Some []).
Proof.
  intros Hcfg Hnodup Hempty.
  destruct (extras_entries_loop (requires package) entries (fun _ => []) []
              package) as (package' & Hrun & Hreq & Hex).
  - by rewrite recorded_nothing.
  - exact Hempty.
  - exact Hnodup.
  - exists package'. split; [| split; [exact Hex | split; [exact Hreq |]]].
    + unfold load_extras, py_get_default. simpl. rewrite Hcfg. exact Hrun.
    + intros e reqs Hin Hnone. rewrite Hex. simpl.
      apply assoc_elem_of.
      * rewrite <- list_fmap_compose. exact Hnodup.
      * apply list_elem_of_fmap. exists (e, reqs). split; [|exact Hin].
        simpl. by rewrite omap_all_None.
Qed.

End ExtrasTable.

Lemma extras_decoded_witness :
  exists package',
    load_extras (H := Demo.host39)
      (fold_left dependencies_entry
         [("foo", TList [TStr "1.0"; TStr "2.0"]); ("bar", TStr "^1.0")]
         Demo.bare_package)
      (TTable [("extras", extras_table [("feature", ["foo"; "missing"]);
                                        ("none", ["absent"])])])
    = Ok package' /\
    extras package' = [("feature", [0]); ("none", [])] /\
    requires package'
    = [mkDependency "foo" (TStr "1.0") "main" ["feature"];
       mkDependency "foo" (TStr "2.0") "main" [];
       mkDependency "bar" (TStr "^1.0") "main" []].
Proof.
  destruct (extras_decoded (H := Demo.host39)
              (fold_left dependencies_entry
                 [("foo", TList [TStr "1.0"; TStr "2.0"]); ("bar", TStr "^1.0")]
                 Demo.bare_package)
              [("extras", extras_table [("feature", ["foo"; "missing"]);
                                        ("none", ["absent"])])]
              [("feature", ["foo"; "missing"]); ("none", ["absent"])])
    as (package' & Hrun & Hextras & Hrequires & _).
  - reflexivity.
  - simpl. apply NoDup_cons. split; [| apply NoDup_singleton].
    rewrite list_elem_of_singleton. discriminate.
  - reflexivity.
  - exists package'. split; [exact Hrun |]. split; [exact Hextras | exact Hrequires].
Defined.

(** C1, as stated, fails where two dependencies share a name: the search
    stops at the first of them. In the demonstration manifest [foo] is
    declared with two constraints and listed under [feature]; the second
    [foo] is neither marked with the extra nor listed under it. *)
Lemma extras_every_match_counterexample :
  exists poetry,
    (create (H := Demo.host39) (Demo.project "manifest") Demo.cwd).2 = Ok poetry /\
    requires (package poetry) !! 1 = Some (mkDependency "foo" (TStr "2.0") "main" []) /\
    extras (package poetry) = [("feature", [0])] /\
    ~ every_match_recorded [("feature", ["foo"; "missing"])] (package poetry).
Proof.
  eexists. split; [vm_compute; reflexivity |].
  split; [reflexivity |]. split; [reflexivity |].
  intros Hall.
  destruct (Hall "feature" ["foo"; "missing"] "foo" 1
              (mkDependency "foo" (TStr "2.0") "main" [])) as [Hin _].
  - apply list_elem_of_singleton. reflexivity.
  - left.
  - reflexivity.
  - reflexivity.
  - simpl in Hin. by apply elem_of_nil in Hin.
Qed.

(** The examples of the specification for extras. *)
Example extras_feature_foo :
  (fun p => (requires p, extras p)) <$>
    load_extras (H := Demo.host39)
      (add_dependency Demo.bare_package "foo" (TStr "^1.0") "main")
      (TTable [("extras", extras_table [("feature", ["foo"])])])
  = Ok ([mkDependency "foo" (TStr "^1.0") "main" ["feature"]], [("feature", [0])]).
Proof. reflexivity. Qed.

Example extras_feature_missing :
  (fun p => (requires p, extras p)) <$>
    load_extras (H := Demo.host39)
      (add_dependency Demo.bare_package "foo" (TStr "^1.0") "main")
      (TTable [("extras", extras_table [("feature", ["missing"])])])
  = Ok ([mkDependency "foo" (TStr "^1.0") "main" []], [("feature", [])]).
Proof. reflexivity. Qed.

(** ** Configuration *)

Section Configuration.

Context `{Collaborators}.

Variable fs : FS.




End Configuration.


Example load_config_no_files :
  load_config (H := Demo.host39) (Demo.project "manifest")
    (parse_path "/work/proj/pyproject.toml") = Ok [].
Proof. reflexivity. Qed.

(** ** Lock-file migration *)

Section LockMigration.


Lemma strip_prefix_sibling (l : list string) (a b : string) :
  a <> b -> strip_prefix (l ++ [a]) (l ++ [b]) = None.
Proof.
  intros Hne. induction l as [|c l IH]; simpl.
  - apply String.eqb_neq in Hne. by rewrite Hne.
  - by rewrite String.eqb_refl.
Qed.



(** The step on a manifest named [pyproject.toml], by cases. *)
Lemma move_lock_cases (fs : FS) (dir : Path) :
  move_lock fs (dir </> "pyproject.toml")
  = Ok (if path_exists fs (dir </> "poetry.lock") then fs
        else if path_exists fs (dir </> "pyproject.lock")
             then move fs (dir </> "pyproject.lock") (dir </> "poetry.lock")
             else fs).
Proof.
  unfold move_lock. rewrite parent_pyproject.
  destruct (path_exists fs (dir </> "poetry.lock")); simpl; [reflexivity |].
  rewrite with_suffix_pyproject, bind_Ok.
  change (mkPath (anchor dir) (parts dir ++ ["pyproject.lock"]))
    with (dir </> "pyproject.lock").
  by destruct (path_exists fs (dir </> "pyproject.lock")).
Qed.


End LockMigration.


(** The migration as [create] performs it. *)
Example create_moves_old_lock :
  let fs' := (create (H := Demo.host39) Demo.old_lock_only Demo.cwd).1 in
  fs' (parse_path "/work/proj/poetry.lock") = Some (File "old lock") /\
  fs' (parse_path "/work/proj/pyproject.lock") = None.
Proof. vm_compute. split; reflexivity. Qed.

Example create_keeps_lock :
  let fs' := (create (H := Demo.host39) Demo.both_locks Demo.cwd).1 in
  fs' (parse_path "/work/proj/poetry.lock") = Some (File "lock") /\
  fs' (parse_path "/work/proj/pyproject.lock") = Some (File "old lock").
Proof. vm_compute. split; reflexivity. Qed.

(** ** The repository credential resolver *)

Section Repository.

Context `{Collaborators}.

Variable self : Poetry.

(** C9: without a [url] the resolver fails with [UnsupportedSource]; with
    a [url] and without a [name] it fails with [MissingSourceName]; with
    both it returns a repository of that name and url, without
    authentication when no credentials are stored for the name, and with
    exactly the stored user name and password when there are. *)
Theorem create_legacy_repository_resolution (source : gmap string string) :
  (source !! "url" = None ->
     create_legacy_repository self source = Raise UnsupportedSource) /\
  (is_Some (source !! "url") -> source !! "name" = None ->
     create_legacy_repository self source = Raise MissingSourceName) /\
  (forall nm url,
     source !! "name" = Some nm -> source !! "url" = Some url ->
     (get_http_basic_auth (config self) nm = None ->
        create_legacy_repository self source
        = Ok (mkLegacyRepository nm url None)) /\
     (forall username password,
        get_http_basic_auth (config self) nm = Some (username, password) ->
        create_legacy_repository self source
        = Ok (mkLegacyRepository nm url (Some (mkAuth url username password))))).
Proof.
  split; [| split].
  - intros Hurl. unfold create_legacy_repository. rewrite Hurl.
    rewrite bool_decide_eq_false_2; [reflexivity |]. by intros [? [=]].
  - intros Hurl Hname. unfold create_legacy_repository. rewrite Hname.
    rewrite (bool_decide_eq_true_2 _ Hurl).
    rewrite bool_decide_eq_false_2; [reflexivity |]. by intros [? [=]].
  - intros nm url Hname Hurl. unfold create_legacy_repository.
    rewrite Hname, Hurl, !bool_decide_eq_true_2 by eauto. simpl. split.
    + intros ->. reflexivity.
    + intros username password ->. reflexivity.
Qed.

(** C10: a source with neither [url] nor [name] fails with
    [UnsupportedSource] and not with [MissingSourceName]; the resolver
    fails with [MissingSourceName] only for a source that has a [url]. *)
Theorem create_legacy_repository_url_first (source : gmap string string) :
  (source !! "url" = None -> source !! "name" = None ->
     create_legacy_repository self source = Raise UnsupportedSource /\
     create_legacy_repository self source <> Raise MissingSourceName) /\
  (create_legacy_repository self source = Raise MissingSourceName ->
     is_Some (source !! "url") /\ source !! "name" = None).
Proof.
  split.
  - intros Hurl _.
    assert (create_legacy_repository self source = Raise UnsupportedSource) as ->.
    { unfold create_legacy_repository. rewrite Hurl.
      rewrite bool_decide_eq_false_2; [reflexivity |]. by intros [? [=]]. }
    split; [reflexivity | discriminate].
  - unfold create_legacy_repository.
    destruct (source !! "url") as [url|] eqn:Hurl.
    + rewrite (bool_decide_eq_true_2 (is_Some (Some url))) by eauto.
      destruct (source !! "name") as [nm|] eqn:Hname.
      * rewrite bool_decide_eq_true_2 by eauto. simpl.
        destruct (get_http_basic_auth (config self) nm); discriminate.
      * intros _. split; [eauto | reflexivity].
    + rewrite bool_decide_eq_false_2 by (by intros [? [=]]). discriminate.
Qed.

End Repository.

Lemma create_legacy_repository_resolution_witness :
  create_legacy_repository (Demo.facade [])
    {[ "name" := "private"; "url" := "https://x" ]}
  = Ok (mkLegacyRepository "private" "https://x" None) /\
  create_legacy_repository (Demo.facade Demo.with_credentials)
    {[ "name" := "private"; "url" := "https://x" ]}
  = Ok (mkLegacyRepository "private" "https://x"
          (Some (mkAuth "https://x" "user" "secret"))) /\
  create_legacy_repository (Demo.facade Demo.with_credentials)
    {[ "name" := "private" ]}
  = Raise UnsupportedSource /\
  create_legacy_repository (Demo.facade Demo.with_credentials)
    {[ "url" := "https://x" ]}
  = Raise MissingSourceName.
Proof.
  split; [| split; [| split]].
  - apply (create_legacy_repository_resolution (Demo.facade [])
             {[ "name" := "private"; "url" := "https://x" ]});
      reflexivity.
  - apply (create_legacy_repository_resolution (Demo.facade Demo.with_credentials)
             {[ "name" := "private"; "url" := "https://x" ]});
      reflexivity.
  - apply (create_legacy_repository_resolution (Demo.facade Demo.with_credentials)
             {[ "name" := "private" ]}).
    reflexivity.
  - apply (create_legacy_repository_resolution (Demo.facade Demo.with_credentials)
             {[ "url" := "https://x" ]}); [by eexists | reflexivity].
Defined.

Lemma create_legacy_repository_url_first_witness :
  create_legacy_repository (Demo.facade Demo.with_credentials) ∅
  = Raise UnsupportedSource /\
  create_legacy_repository (Demo.facade Demo.with_credentials) ∅
  <> Raise MissingSourceName.
Proof.
  apply (create_legacy_repository_url_first (Demo.facade Demo.with_credentials) ∅);
    reflexivity.
Defined.

(** ** The extras step inside [create] *)

Section PackageExtras.

Context `{Collaborators}.

Lemma bind_Ok_inv {A B : Type} (m : result A) (f : A -> result B) (b : B) :
  m ≫= f = Ok b -> exists a, m = Ok a /\ f a = Ok b.
Proof. destruct m as [a|e]; [by exists a | discriminate]. Qed.

(** A loop keeps what each of its steps keeps. *)
Lemma for_each_invariant {A S : Type} (P : S -> Prop) (body : S -> A -> result S)
    (xs : list A) :
  (forall s x s', P s -> body s x = Ok s' -> P s') ->
  forall s s', P s -> for_each body xs s = Ok s' -> P s'.
Proof.
  intros Hbody. induction xs as [|x xs IH]; intros s s' Hs; simpl.
  - by intros [= <-].
  - intros (s1 & Hstep & Hrest)%bind_Ok_inv. eauto.
Qed.

Lemma extras_dependencies_entry (package : Package) (entry : string * toml) :
  extras (dependencies_entry package entry) = extras package.
Proof.
  destruct entry as [nm constraint]. simpl.
  destruct (String.eqb (lower nm) "python"); [reflexivity |].
  destruct constraint; try reflexivity.
  revert package. induction items as [|c cs IH]; intros package; simpl;
    [reflexivity | by rewrite IH].
Qed.

Lemma extras_load_dependencies (package package' : Package) (cfg : toml) :
  load_dependencies package cfg = Ok package' -> extras package' = extras package.
Proof.
  unfold load_dependencies.
  intros (present & _ & Hrest)%bind_Ok_inv.
  destruct present; [| by injection Hrest as <-].
  apply bind_Ok_inv in Hrest as (table & _ & Hrest).
  apply bind_Ok_inv in Hrest as (entries & _ & [= <-]).
  clear. revert package. induction entries as [|entry entries IH];
    intros package; simpl; [reflexivity |].
  by rewrite IH, extras_dependencies_entry.
Qed.

Lemma extras_load_dev_dependencies (cwd : Path) (package package' : Package)
    (cfg : toml) :
  load_dev_dependencies cwd package cfg = Ok package' ->
  extras package' = extras package.
Proof.
  unfold load_dev_dependencies.
  intros (present & _ & Hrest)%bind_Ok_inv.
  destruct present; [| by injection Hrest as <-].
  apply bind_Ok_inv in Hrest as (v & _ & Hrest).
  apply bind_Ok_inv in Hrest as (table & _ & Hrest).
  apply bind_Ok_inv in Hrest as (entries & _ & Hloop).
  revert Hloop.
  apply (for_each_invariant (fun p => extras p = extras package)); [| reflexivity].
  intros p [nm constraint] p' Hp. unfold dev_dependencies_entry.
  apply (for_each_invariant (fun p => extras p = extras package)); [| exact Hp].
  clear. intros p c p' Hp. unfold dev_dependencies_constraint.
  intros (has_python & _ & Hrest)%bind_Ok_inv.
  destruct has_python; [| by injection Hrest as <-].
  apply bind_Ok_inv in Hrest as (sub & _ & Hrest).
  apply bind_Ok_inv in Hrest as (python_constraint & _ & Hrest).
  destruct (allows python_constraint v); simpl in Hrest; by injection Hrest as <-.
Qed.

(** Recording extras changes no name, constraint or category. *)
Lemma fields_recorded (deps0 : list Dependency) (M : nat -> list string) :
  map (fun d => (dep_name d, dep_constraint d, dep_category d)) (recorded deps0 M)
  = map (fun d => (dep_name d, dep_constraint d, dep_category d)) deps0.
Proof.
  unfold recorded. revert M.
  induction deps0 as [|d ds IH]; intros M; simpl; [reflexivity |].
  f_equal. apply IH.
Qed.

(** The extras step in its place: within [load_package] it runs on the
    package as the two dependency tables left it, with no extra recorded
    yet, and what it leaves in [requires] and [extras] is what the package
    returned holds. *)
Lemma load_package_extras (cwd poetry_file : Path) (cfg : list (string * toml))
    (entries : list (string * list string)) (pkg : Package) :
  load_package cwd poetry_file (TTable cfg) = Ok pkg ->
  assoc "extras" cfg = Some (extras_table entries) ->
  NoDup (map fst entries) ->
  exists deps0,
    map (fun d => (dep_name d, dep_constraint d, dep_category d)) (requires pkg)
    = map (fun d => (dep_name d, dep_constraint d, dep_category d)) deps0 /\
    extras pkg
    = map (fun entry =>
             (fst entry, omap (fun r => first_index r deps0) (snd entry)))
          entries /\
    requires pkg = recorded deps0 (extras_reaching deps0 entries).
Proof.
  intros Hload Hcfg Hnodup. unfold load_package in Hload.
  repeat match type of Hload with
         | _ ≫= _ = Ok _ =>
             let x := fresh "x" in
             let Hx := fresh "Hx" in
             apply bind_Ok_inv in Hload as (x & Hx & Hload)
         end.
  injection Hload as <-.
  match goal with
  | Hd : load_dependencies ?p0 _ = Ok ?p1,
    Hv : load_dev_dependencies _ ?p1 _ = Ok ?p2,
    He : load_extras ?p2 _ = Ok ?p3 |- _ =>
      assert (extras p2 = []) as Hempty
        by (rewrite (extras_load_dev_dependencies _ _ _ _ Hv),
                    (extras_load_dependencies _ _ _ Hd); reflexivity);
      destruct (extras_entries_loop (requires p2) entries (fun _ => []) [] p2)
        as (p3' & Hrun & Hreq & Hex);
        [by rewrite recorded_nothing | exact Hempty | exact Hnodup |];
      assert (p3' = p3) as ->
        by (unfold load_extras, py_get_default in He; simpl in He;
            rewrite Hcfg in He; simpl in He; unfold extras_table in He;
            congruence);
      exists (requires p2)
  end.
  simpl. split; [| split; assumption].
  rewrite Hreq. apply fields_recorded.
Qed.

End PackageExtras.

(** * Further properties of the code *)

(** ** The section of the document *)

Section SectionLookup.

Variable poetry_file : Path.

(** X1: the [tool.poetry] section is returned exactly for a document that
    is a table whose [tool] entry is a table with a [poetry] key, and it is
    the value under that key; on any other document the lookup raises the
    missing-section error or [TypeError], never [KeyError]. *)
Theorem tool_poetry_Ok_iff (doc cfg : toml) :
  (tool_poetry poetry_file doc = Ok cfg <->
   exists entries tool,
     doc = TTable entries /\
     assoc "tool" entries = Some (TTable tool) /\
     assoc "poetry" tool = Some cfg) /\
  (forall e, tool_poetry poetry_file doc = Raise e ->
     e = ManifestSectionMissing poetry_file \/ e = TypeError).
Proof.
  unfold tool_poetry. split; [split |].
  - destruct doc as [s|z|b|items|entries]; simpl.
    + destruct (str_contains "tool" s); simpl; discriminate.
    + discriminate.
    + discriminate.
    + destruct (existsb _ items); simpl; discriminate.
    + destruct (assoc "tool" entries) as [tool|] eqn:Htool; simpl;
        [| discriminate].
      destruct tool as [s|z|b|items|fields]; simpl.
      * destruct (str_contains "poetry" s); simpl; discriminate.
      * discriminate.
      * discriminate.
      * destruct (existsb _ items); simpl; discriminate.
      * destruct (assoc "poetry" fields) as [section|] eqn:Hsection; simpl;
          [| discriminate].
        intros [= <-]. by exists entries, fields.
  - intros (entries & tool & -> & Htool & Hsection). simpl.
    rewrite Htool. simpl. rewrite Hsection. simpl.
    rewrite ?Htool. simpl. by rewrite ?Hsection.
  - intros e. destruct doc as [s|z|b|items|entries]; simpl.
    + destruct (str_contains "tool" s); simpl; intros [= <-]; auto.
    + intros [= <-]; auto.
    + intros [= <-]; auto.
    + destruct (existsb _ items); simpl; intros [= <-]; auto.
    + destruct (assoc "tool" entries) as [tool|] eqn:Htool; simpl;
        [| intros [= <-]; auto].
      destruct tool as [s|z|b|items|fields]; simpl.
      * destruct (str_contains "poetry" s); simpl; intros [= <-]; auto.
      * intros [= <-]; auto.
      * intros [= <-]; auto.
      * destruct (existsb _ items); simpl; intros [= <-]; auto.
      * destruct (assoc "poetry" fields) as [section|]; simpl;
          [discriminate | intros [= <-]; auto].
Qed.

End SectionLookup.

(** A [tool] entry that is a string mentioning [poetry] passes the test
    of line 68 and cannot be indexed on line 72. *)
Example tool_is_a_string :
  tool_poetry (parse_path "/work/proj/pyproject.toml")
    (TTable [("tool", TStr "poetry")]) = Raise TypeError.
Proof. reflexivity. Qed.

(** ** What the dependency steps leave alone *)

Section Kept.

Context `{Collaborators} {T : Type} (f : Package -> T).

Hypothesis kept_requires : forall p ds, f (set_requires p ds) = f p.
Hypothesis kept_extras : forall p ex, f (set_extras p ex) = f p.
Hypothesis kept_python : forall p v, f (set_python_versions p v) = f p.

Lemma kept_add_dependency (p : Package) nm constraint category :
  f (add_dependency p nm constraint category) = f p.
Proof. apply kept_requires. Qed.

Lemma kept_dependencies_entry (p : Package) (entry : string * toml) :
  f (dependencies_entry p entry) = f p.
Proof.
  destruct entry as [nm constraint]. simpl.
  destruct (String.eqb (lower nm) "python"); [apply kept_python |].
  destruct constraint; try apply kept_add_dependency.
  revert p. induction items as [|c cs IH]; intros p; simpl; [reflexivity |].
  by rewrite IH, kept_add_dependency.
Qed.

Lemma kept_load_dependencies (p p' : Package) (cfg : toml) :
  load_dependencies p cfg = Ok p' -> f p' = f p.
Proof.
  unfold load_dependencies.
  intros (present & _ & Hrest)%bind_Ok_inv.
  destruct present; [| by injection Hrest as <-].
  apply bind_Ok_inv in Hrest as (table & _ & Hrest).
  apply bind_Ok_inv in Hrest as (entries & _ & [= <-]).
  clear -kept_requires kept_python. revert p.
  induction entries as [|entry entries IH]; intros p; simpl; [reflexivity |].
  by rewrite IH, kept_dependencies_entry.
Qed.

Lemma kept_load_dev_dependencies (cwd : Path) (p p' : Package) (cfg : toml) :
  load_dev_dependencies cwd p cfg = Ok p' -> f p' = f p.
Proof.
  unfold load_dev_dependencies.
  intros (present & _ & Hrest)%bind_Ok_inv.
  destruct present; [| by injection Hrest as <-].
  apply bind_Ok_inv in Hrest as (v & _ & Hrest).
  apply bind_Ok_inv in Hrest as (table & _ & Hrest).
  apply bind_Ok_inv in Hrest as (entries & _ & Hloop).
  revert Hloop.
  apply (for_each_invariant (fun q => f q = f p)); [| reflexivity].
  intros q [nm constraint] q' Hq. unfold dev_dependencies_entry.
  apply (for_each_invariant (fun q => f q = f p)); [| exact Hq].
  intros q1 c q2 Hq1. unfold dev_dependencies_constraint.
  intros (has_python & _ & Hrest)%bind_Ok_inv.
  destruct has_python.
  - apply bind_Ok_inv in Hrest as (sub & _ & Hrest).
    apply bind_Ok_inv in Hrest as (python_constraint & _ & Hrest).
    destruct (allows python_constraint v); simpl in Hrest;
      injection Hrest as <-; [by rewrite kept_add_dependency | exact Hq1].
  - injection Hrest as <-. by rewrite kept_add_dependency.
Qed.

Lemma kept_load_extras (p p' : Package) (cfg : toml) :
  load_extras p cfg = Ok p' -> f p' = f p.
Proof.
  unfold load_extras.
  intros (table & _ & Hrest)%bind_Ok_inv.
  apply bind_Ok_inv in Hrest as (entries & _ & Hloop).
  revert Hloop.
  apply (for_each_invariant (fun q => f q = f p)); [| reflexivity].
  intros q [extra_name requirements] q' Hq. unfold extras_entry.
  intros (reqs & _ & Hloop)%bind_Ok_inv. revert Hloop.
  apply (for_each_invariant (fun q => f q = f p));
    [| by rewrite kept_extras].
  intros q1 req q2 Hq1. unfold extras_requirement.
  destruct req as [req_name| | | |]; try discriminate.
  destruct (extras_search extra_name req_name (requires q1) 0) as [deps hit].
  intros [= <-]. destruct hit; by rewrite ?kept_extras, kept_requires.
Qed.

End Kept.

(** ** The metadata of the package *)

Section Metadata.

Context `{Collaborators}.

Variables cwd poetry_file : Path.

Lemma py_getitem_table (cfg : list (string * toml)) (key : string) (x : toml) :
  py_getitem (TTable cfg) key = Ok x <-> assoc key cfg = Some x.
Proof.
  simpl. destruct (assoc key cfg); split; intros Heq; by inversion Heq.
Qed.

Lemma py_if_present_table (cfg : list (string * toml)) (key : string) :
  py_if_present (TTable cfg) key = Ok (assoc key cfg).
Proof.
  unfold py_if_present, py_in, py_getitem.
  destruct (assoc key cfg) as [x|] eqn:Hx.
  - rewrite bool_decide_eq_true_2 by eauto. reflexivity.
  - rewrite bool_decide_eq_false_2; [reflexivity |]. by intros [? [=]].
Qed.

(** The package returned by [load_package], taken apart: the package [p0]
    that lines 84-112 set up, then the three dependency steps, then the
    fields of lines 156-170. *)
Lemma load_package_Ok (cfg : list (string * toml)) (pkg : Package) :
  load_package cwd poetry_file (TTable cfg) = Ok pkg ->
  exists nm version authors_ maintainers_ license_ readme_ p1 p2 p3,
    assoc "name" cfg = Some nm /\
    assoc "version" cfg = Some version /\
    (py_getitem (TTable cfg) "authors" ≫= py_iter) = Ok authors_ /\
    py_iter (default (TList []) (assoc "maintainers" cfg)) = Ok maintainers_ /\
    match license_by_id (default (TStr "") (assoc "license" cfg)) with
    | Ok l => license_ = Some l
    | Raise ValueError => license_ = None
    | Raise _ => False
    end /\
    match assoc "readme" cfg with
    | Some (TStr s) => readme_ = Some (parent poetry_file </> s)
    | Some _ => False
    | None => readme_ = None
    end /\
    load_dependencies
      {| pkg_name := nm; pkg_version := version; pkg_pretty_version := version;
         root_dir := parent poetry_file;
         authors := authors_; maintainers := maintainers_;
         description := default (TStr "") (assoc "description" cfg);
         homepage := assoc "homepage" cfg;
         repository_url := assoc "repository" cfg;
         documentation_url := assoc "documentation" cfg;
         license := license_;
         keywords := default (TList []) (assoc "keywords" cfg);
         classifiers := default (TList []) (assoc "classifiers" cfg);
         readme := readme_; platform := assoc "platform" cfg;
         python_versions := TStr "*"; requires := []; extras := [];
         build := None; include := None; exclude := None; packages := None;
         custom_urls := None |} (TTable cfg) = Ok p1 /\
    load_dev_dependencies cwd p1 (TTable cfg) = Ok p2 /\
    load_extras p2 (TTable cfg) = Ok p3 /\
    pkg = set_passthrough p3 (assoc "build" cfg) (assoc "include" cfg)
            (assoc "exclude" cfg) (assoc "packages" cfg) (assoc "urls" cfg).
Proof.
  unfold load_package. rewrite !py_if_present_table.
  intros (nm & Hname%py_getitem_table & Hload)%bind_Ok_inv.
  apply bind_Ok_inv in Hload as (version & Hversion%py_getitem_table & Hload).
  apply bind_Ok_inv in Hload as (authors_ & Hauthors & Hload).
  apply bind_Ok_inv in Hload as (maintainers_ & Hmaintainers & Hload).
  apply bind_Ok_inv in Hload as (description_ & [= <-] & Hload).
  apply bind_Ok_inv in Hload as (homepage_ & [= <-] & Hload).
  apply bind_Ok_inv in Hload as (repository_ & [= <-] & Hload).
  apply bind_Ok_inv in Hload as (documentation_ & [= <-] & Hload).
  apply bind_Ok_inv in Hload as (license_id & [= <-] & Hload).
  apply bind_Ok_inv in Hload as (license_ & Hlicense & Hload).
  apply bind_Ok_inv in Hload as (keywords_ & [= <-] & Hload).
  apply bind_Ok_inv in Hload as (classifiers_ & [= <-] & Hload).
  apply bind_Ok_inv in Hload as (readme_ & Hreadme & Hload).
  rewrite !bind_Ok in Hload.
  apply bind_Ok_inv in Hload as (p1 & Hp1 & Hload).
  apply bind_Ok_inv in Hload as (p2 & Hp2 & Hload).
  apply bind_Ok_inv in Hload as (p3 & Hp3 & Hload).
  rewrite !bind_Ok in Hload. injection Hload as <-.
  exists nm, version, authors_, maintainers_, license_, readme_, p1, p2, p3.
  repeat split; try assumption.
  - destruct (license_by_id _) as [l|e]; [by injection Hlicense as <- |].
    by destruct e; try discriminate; injection Hlicense as <-.
  - rewrite bind_Ok in Hreadme.
    destruct (assoc "readme" cfg) as [r|]; [| by injection Hreadme as <-].
    by destruct r; try discriminate; injection Hreadme as <-.
Qed.

End Metadata.

Section PackageFields.

Context `{Collaborators}.

Variables cwd poetry_file : Path.

(** X2: when the package is built, its name and version are the ones
    declared, the version also being the pretty version; its root is the
    directory of the manifest; authors and maintainers are what iterating
    the declared values yields (no maintainers when the key is absent); the
    description defaults to the empty string and keywords and classifiers
    to the empty list; homepage, repository, documentation and platform are
    the declared values or nothing; the readme is the declared string
    joined to the manifest directory; and the licence is what the lookup
    returns, or nothing when the lookup raises [ValueError]. The
    dependency steps change none of these. *)
Theorem load_package_metadata (cfg : list (string * toml)) (pkg : Package) :
  load_package cwd poetry_file (TTable cfg) = Ok pkg ->
  assoc "name" cfg = Some (pkg_name pkg) /\
  assoc "version" cfg = Some (pkg_version pkg) /\
  pkg_pretty_version pkg = pkg_version pkg /\
  root_dir pkg = parent poetry_file /\
  (py_getitem (TTable cfg) "authors" ≫= py_iter) = Ok (authors pkg) /\
  py_iter (default (TList []) (assoc "maintainers" cfg)) = Ok (maintainers pkg) /\
  description pkg = default (TStr "") (assoc "description" cfg) /\
  homepage pkg = assoc "homepage" cfg /\
  repository_url pkg = assoc "repository" cfg /\
  documentation_url pkg = assoc "documentation" cfg /\
  keywords pkg = default (TList []) (assoc "keywords" cfg) /\
  classifiers pkg = default (TList []) (assoc "classifiers" cfg) /\
  platform pkg = assoc "platform" cfg /\
  match assoc "readme" cfg with
  | Some (TStr s) => readme pkg = Some (parent poetry_file </> s)
  | Some _ => False
  | None => readme pkg = None
  end /\
  match license_by_id (default (TStr "") (assoc "license" cfg)) with
  | Ok l => license pkg = Some l
  | Raise ValueError => license pkg = None
  | Raise _ => False
  end.
Proof.
  intros Hload.
  destruct (load_package_Ok cwd poetry_file cfg pkg Hload)
    as (nm & version & authors_ & maintainers_ & license_ & readme_
        & p1 & p2 & p3 & Hname & Hversion & Hauthors & Hmaintainers
        & Hlicense & Hreadme & Hp1 & Hp2 & Hp3 & ->).
  assert (metadata (set_passthrough p3 (assoc "build" cfg) (assoc "include" cfg)
                      (assoc "exclude" cfg) (assoc "packages" cfg)
                      (assoc "urls" cfg))
          = (nm, version, version, parent poetry_file, authors_, maintainers_,
             default (TStr "") (assoc "description" cfg),
             assoc "homepage" cfg, assoc "repository" cfg,
             assoc "documentation" cfg, license_,
             default (TList []) (assoc "keywords" cfg),
             default (TList []) (assoc "classifiers" cfg), readme_,
             assoc "platform" cfg)) as Hmeta.
  { change (metadata (set_passthrough p3 _ _ _ _ _)) with (metadata p3).
    rewrite (kept_load_extras metadata (fun _ _ => eq_refl) (fun _ _ => eq_refl)
               _ _ _ Hp3).
    rewrite (kept_load_dev_dependencies metadata (fun _ _ => eq_refl) _ _ _ _ Hp2).
    rewrite (kept_load_dependencies metadata (fun _ _ => eq_refl)
               (fun _ _ => eq_refl) _ _ _ Hp1).
    reflexivity. }
  unfold metadata in Hmeta. simpl in Hmeta.
  injection Hmeta as E1 E2 E3 E4 E5 E6 E7 E8 E9 E10 E11 E12 E13 E14 E15.
  simpl. rewrite E1, E2, E3, E4, E5, E6, E7, E8, E9, E10, E11, E12, E13, E14, E15.
  repeat split; assumption.
Qed.

(** X3: the fields [build], [include], [exclude], [packages] and [urls]
    of the section are copied to the package as they are, and a key that is
    absent leaves its attribute unset. *)
Theorem load_package_passthrough (cfg : list (string * toml)) (pkg : Package) :
  load_package cwd poetry_file (TTable cfg) = Ok pkg ->
  build pkg = assoc "build" cfg /\
  include pkg = assoc "include" cfg /\
  exclude pkg = assoc "exclude" cfg /\
  packages pkg = assoc "packages" cfg /\
  custom_urls pkg = assoc "urls" cfg.
Proof.
  intros Hload.
  destruct (load_package_Ok cwd poetry_file cfg pkg Hload)
    as (nm & version & authors_ & maintainers_ & license_ & readme_
        & p1 & p2 & p3 & _ & _ & _ & _ & _ & _ & Hp1 & Hp2 & Hp3 & ->).
  assert (passthrough p3 = (None, None, None, None, None)) as Hnone.
  { rewrite (kept_load_extras passthrough (fun _ _ => eq_refl)
               (fun _ _ => eq_refl) _ _ _ Hp3).
    rewrite (kept_load_dev_dependencies passthrough (fun _ _ => eq_refl)
               _ _ _ _ Hp2).
    rewrite (kept_load_dependencies passthrough (fun _ _ => eq_refl)
               (fun _ _ => eq_refl) _ _ _ Hp1).
    reflexivity. }
  unfold passthrough in Hnone. injection Hnone as Hb Hi He Hp Hu.
  simpl. rewrite Hb, Hi, He, Hp, Hu.
  assert (forall o : option toml, from_option Some None o = o) as Hcopy
    by (by intros [x|]).
  by rewrite !Hcopy.
Qed.

(** X4: the required fields are read in the order [name], [version],
    [authors], and the first of them that the section lacks raises
    [KeyError] for that key. *)
Theorem load_package_required_keys (cfg : list (string * toml)) :
  (assoc "name" cfg = None ->
     load_package cwd poetry_file (TTable cfg) = Raise (KeyError "name")) /\
  (is_Some (assoc "name" cfg) -> assoc "version" cfg = None ->
     load_package cwd poetry_file (TTable cfg) = Raise (KeyError "version")) /\
  (is_Some (assoc "name" cfg) -> is_Some (assoc "version" cfg) ->
   assoc "authors" cfg = None ->
     load_package cwd poetry_file (TTable cfg) = Raise (KeyError "authors")).
Proof.
  unfold load_package. split; [| split].
  - intros Hname. simpl. by rewrite Hname.
  - intros [nm Hname] Hversion. simpl. rewrite Hname. simpl. by rewrite Hversion.
  - intros [nm Hname] [version Hversion] Hauthors. simpl.
    rewrite Hname. simpl. rewrite Hversion. simpl. by rewrite Hauthors.
Qed.

(** X5: a section that declares only [name], [version] and a list of
    [authors] builds, on a licence table that does not know the empty
    identifier, a package with these three, no maintainers, an empty
    description, no licence, empty keywords and classifiers, no
    dependencies, no extras and nothing else set; the host environment is
    not consulted. *)
Theorem load_package_minimal (cfg : list (string * toml)) (nm version : toml)
    (authors_ : list toml) :
  assoc "name" cfg = Some nm ->
  assoc "version" cfg = Some version ->
  assoc "authors" cfg = Some (TList authors_) ->
  Forall (fun key => assoc key cfg = None) optional_keys ->
  license_by_id (TStr "") = Raise ValueError ->
  load_package cwd poetry_file (TTable cfg)
  = Ok {| pkg_name := nm; pkg_version := version; pkg_pretty_version := version;
          root_dir := parent poetry_file;
          authors := authors_; maintainers := [];
          description := TStr ""; homepage := None;
          repository_url := None; documentation_url := None;
          license := None; keywords := TList []; classifiers := TList [];
          readme := None; platform := None;
          python_versions := TStr "*"; requires := []; extras := [];
          build := None; include := None; exclude := None; packages := None;
          custom_urls := None |}.
Proof.
  intros Hname Hversion Hauthors Habsent Hlicense.
  unfold optional_keys in Habsent.
  repeat match type of Habsent with
         | Forall _ (_ :: _) =>
             let Hkey := fresh "Hkey" in
             apply Forall_cons in Habsent as [Hkey Habsent]
         end.
  unfold load_package, load_dependencies, load_dev_dependencies, load_extras.
  rewrite !py_if_present_table. unfold py_get_default. simpl.
  repeat match goal with
         | Hkey : assoc _ cfg = _ |- _ => rewrite Hkey; clear Hkey
         end.
  simpl. rewrite Hlicense. reflexivity.
Qed.

End PackageFields.

Lemma load_package_metadata_witness :
  exists pkg,
    load_package (H := Demo.host39) Demo.cwd Demo.pyproject
      (TTable (Demo.section Demo.manifest)) = Ok pkg /\
    pkg_name pkg = TStr "demo" /\
    root_dir pkg = parse_path "/work/proj" /\
    description pkg = TStr "" /\
    maintainers pkg = [] /\
    license pkg = None.
Proof.
  destruct (load_package (H := Demo.host39) Demo.cwd Demo.pyproject
              (TTable (Demo.section Demo.manifest))) as [pkg|e] eqn:Hload;
    [| vm_compute in Hload; discriminate].
  exists pkg. split; [reflexivity |].
  destruct (load_package_metadata (H := Demo.host39) Demo.cwd Demo.pyproject
              _ pkg Hload)
    as (Hname & _ & _ & Hroot & _ & Hmaintainers & Hdescription & _ & _ & _
        & _ & _ & _ & _ & Hlicense).
  vm_compute in Hname, Hroot, Hmaintainers, Hdescription, Hlicense.
  repeat split.
  - by injection Hname.
  - exact Hroot.
  - exact Hdescription.
  - by injection Hmaintainers.
  - exact Hlicense.
Defined.

Lemma load_package_passthrough_witness :
  exists pkg,
    load_package (H := Demo.host39) Demo.cwd Demo.pyproject
      (TTable (Demo.minimal ++ [("build", TStr "build.py")])) = Ok pkg /\
    build pkg = Some (TStr "build.py") /\ include pkg = None.
Proof.
  destruct (load_package (H := Demo.host39) Demo.cwd Demo.pyproject
              (TTable (Demo.minimal ++ [("build", TStr "build.py")])))
    as [pkg|e] eqn:Hload; [| vm_compute in Hload; discriminate].
  exists pkg. split; [reflexivity |].
  destruct (load_package_passthrough (H := Demo.host39) Demo.cwd Demo.pyproject
              _ pkg Hload) as (Hbuild & Hinclude & _).
  split; assumption.
Defined.

Lemma load_package_required_keys_witness :
  load_package (H := Demo.host39) Demo.cwd Demo.pyproject
    (TTable [("name", TStr "demo"); ("authors", TList [])])
  = Raise (KeyError "version").
Proof.
  apply (load_package_required_keys (H := Demo.host39) Demo.cwd Demo.pyproject
           [("name", TStr "demo"); ("authors", TList [])]);
    [by eexists | reflexivity].
Defined.

Lemma load_package_minimal_witness :
  requires <$> load_package (H := Demo.host39) Demo.cwd Demo.pyproject
                 (TTable Demo.minimal) = Ok [].
Proof.
  rewrite (load_package_minimal (H := Demo.host39) Demo.cwd Demo.pyproject
             Demo.minimal (TStr "demo") (TStr "0.1.0")
             [TStr "A. Author <a@example.org>"]).
  - reflexivity.
  - reflexivity.
  - reflexivity.
  - reflexivity.
  - repeat constructor.
  - reflexivity.
Defined.

(** ** The dependency tables as a whole *)

Section DependencyTables.

Context `{Collaborators}.

Lemma python_versions_dependencies (entries : list (string * toml)) (p : Package) :
  python_versions (fold_left dependencies_entry entries p)
  = last_python (python_versions p) entries.
Proof.
  unfold last_python. revert p.
  induction entries as [|[nm c] entries IH]; intros p; simpl; [reflexivity |].
  rewrite IH. f_equal.
  destruct (String.eqb (lower nm) "python"); [reflexivity |].
  destruct c; try reflexivity. apply python_versions_add_each.
Qed.

(** X6: without a [dependencies] key the package is left as it is. With a
    table under the key, the step succeeds: [requires] grows, in the order
    of the table, by one dependency of category [main] per constraint of
    every entry not named [python]; the Python-version requirement is the
    constraint of the last entry named [python] in any letter case, or is
    unchanged when there is none; [extras] is untouched. A value under the
    key that is not a table raises [AttributeError]. *)
Theorem load_dependencies_table (p : Package) (cfg : list (string * toml)) :
  (assoc "dependencies" cfg = None -> load_dependencies p (TTable cfg) = Ok p) /\
  (forall entries, assoc "dependencies" cfg = Some (TTable entries) ->
     exists p',
       load_dependencies p (TTable cfg) = Ok p' /\
       requires p' = requires p ++ flat_map entry_requires entries /\
       python_versions p' = last_python (python_versions p) entries /\
       extras p' = extras p) /\
  (forall v, assoc "dependencies" cfg = Some v ->
     (forall entries, v <> TTable entries) ->
     load_dependencies p (TTable cfg) = Raise AttributeError).
Proof.
  unfold load_dependencies, py_in, py_getitem. split; [| split].
  - intros Hnone. rewrite Hnone.
    rewrite bool_decide_eq_false_2; [reflexivity |]. by intros [? [=]].
  - intros entries Htable. rewrite Htable.
    rewrite bool_decide_eq_true_2 by eauto. simpl.
    eexists. split; [reflexivity |]. split; [apply requires_dependencies |].
    split; [apply python_versions_dependencies |].
    clear. revert p. induction entries as [|entry entries IH]; intros p; simpl;
      [reflexivity |].
    by rewrite IH, extras_dependencies_entry.
  - intros v Hv Hnot. rewrite Hv. rewrite bool_decide_eq_true_2 by eauto. simpl.
    destruct v; try reflexivity. by destruct (Hnot entries).
Qed.

(** X7: the host environment is consulted only when the section has a
    [dev-dependencies] key: without the key the package is left as it is,
    whatever the environment provider would do; with the key, a failure of
    the provider is the failure of the step, even for an empty table. *)
Theorem load_dev_dependencies_environment (cwd : Path) (p : Package)
    (cfg : list (string * toml)) :
  (assoc "dev-dependencies" cfg = None ->
     load_dev_dependencies cwd p (TTable cfg) = Ok p) /\
  (forall e, is_Some (assoc "dev-dependencies" cfg) ->
     env_python_version cwd = Raise e ->
     load_dev_dependencies cwd p (TTable cfg) = Raise e).
Proof.
  unfold load_dev_dependencies, py_in. split.
  - intros Hnone. rewrite Hnone.
    rewrite bool_decide_eq_false_2; [reflexivity |]. by intros [? [=]].
  - intros e Hsome Henv. rewrite bool_decide_eq_true_2 by exact Hsome.
    simpl. by rewrite Henv.
Qed.

Section DevTable.

Variable v : Version.

(** One constraint, by what [dev_keeps] says of it. *)
Lemma dev_constraint_cases (nm : string) (p : Package) (c : toml) :
  match dev_keeps v c with
  | Some true =>
      dev_dependencies_constraint v nm p c = Ok (add_dependency p nm c "dev")
  | Some false => dev_dependencies_constraint v nm p c = Ok p
  | None => exists e, dev_dependencies_constraint v nm p c = Raise e
  end.
Proof.
  unfold dev_dependencies_constraint, dev_keeps, py_in, py_getitem.
  destruct c as [s|z|b|items|fields]; simpl.
  - destruct (str_contains "python" s); simpl; eauto.
  - eauto.
  - eauto.
  - destruct (existsb _ items); simpl; eauto.
  - destruct (assoc "python" fields) as [sub|] eqn:Hsub.
    + rewrite bool_decide_eq_true_2 by eauto. simpl.
      destruct (parse_single_constraint sub) as [pc|e]; simpl; [| eauto].
      by destruct (allows pc v).
    + rewrite bool_decide_eq_false_2; [reflexivity |]. by intros [? [=]].
Qed.

Lemma dev_constraints_loop (nm : string) (cs : list toml) (p : Package) :
  Forall (fun c => is_Some (dev_keeps v c)) cs ->
  exists p',
    for_each (dev_dependencies_constraint v nm) cs p = Ok p' /\
    requires p'
    = requires p ++ map (fun c => mkDependency nm c "dev" [])
                        (filter (fun c => dev_keeps v c = Some true) cs) /\
    python_versions p' = python_versions p.
Proof.
  intros Hall. revert p. induction Hall as [|c cs [b Hc] _ IH]; intros p.
  - exists p. split; [reflexivity |]. simpl. by rewrite app_nil_r.
  - pose proof (dev_constraint_cases nm p c) as Hstep. rewrite Hc in Hstep.
    rewrite for_each_cons. destruct b.
    + rewrite Hstep, bind_Ok.
      destruct (IH (add_dependency p nm c "dev")) as (p' & -> & Hreq & Hpy).
      exists p'. split; [reflexivity |]. split; [| exact Hpy].
      rewrite Hreq, filter_cons_True by exact Hc. simpl.
      by rewrite <- app_assoc.
    + rewrite Hstep, bind_Ok. destruct (IH p) as (p' & -> & Hreq & Hpy).
      exists p'. split; [reflexivity |]. split; [| exact Hpy].
      rewrite Hreq, filter_cons_False; [reflexivity |]. rewrite Hc. discriminate.
Qed.

Lemma dev_constraints_loop_raises (nm : string) (cs : list toml) (p : Package) :
  Exists (fun c => dev_keeps v c = None) cs ->
  exists e, for_each (dev_dependencies_constraint v nm) cs p = Raise e.
Proof.
  intros Hsome. revert p. induction cs as [|c cs IH]; intros p.
  - by apply Exists_nil in Hsome.
  - rewrite for_each_cons.
    pose proof (dev_constraint_cases nm p c) as Hstep.
    destruct (dev_keeps v c) as [b|] eqn:Hc.
    + apply Exists_cons in Hsome as [Hhere | Hrest]; [congruence |].
      destruct b; rewrite Hstep, bind_Ok; by apply IH.
    + destruct Hstep as [e ->]. by exists e.
Qed.

Lemma dev_dependencies_entry_constraints (p : Package) (nm : string) (c : toml) :
  dev_dependencies_entry v p (nm, c)
  = for_each (dev_dependencies_constraint v nm) (entry_constraints c) p.
Proof. reflexivity. Qed.

Lemma dev_entries_loop (entries : list (string * toml)) (p : Package) :
  Forall (fun entry =>
            Forall (fun c => is_Some (dev_keeps v c)) (entry_constraints (snd entry)))
         entries ->
  exists p',
    for_each (dev_dependencies_entry v) entries p = Ok p' /\
    requires p' = requires p ++ flat_map (dev_entry_requires v) entries /\
    python_versions p' = python_versions p.
Proof.
  intros Hall. revert p. induction Hall as [|[nm c] entries Hentry _ IH]; intros p.
  - exists p. split; [reflexivity |]. simpl. by rewrite app_nil_r.
  - rewrite for_each_cons.
    destruct (dev_constraints_loop nm (entry_constraints c) p Hentry)
      as (p1 & Hstep & Hreq1 & Hpy1).
    rewrite dev_dependencies_entry_constraints, Hstep, bind_Ok.
    destruct (IH p1) as (p' & -> & Hreq & Hpy).
    exists p'. split; [reflexivity |]. split; [| congruence].
    rewrite Hreq, Hreq1, <- app_assoc. reflexivity.
Qed.

Lemma dev_entries_loop_raises (entries : list (string * toml)) (p : Package) :
  Exists (fun entry =>
            Exists (fun c => dev_keeps v c = None) (entry_constraints (snd entry)))
         entries ->
  exists e, for_each (dev_dependencies_entry v) entries p = Raise e.
Proof.
  intros Hsome. revert p. induction entries as [|[nm c] entries IH]; intros p.
  - by apply Exists_nil in Hsome.
  - rewrite for_each_cons, dev_dependencies_entry_constraints.
    destruct (for_each (dev_dependencies_constraint v nm) (entry_constraints c) p)
      as [p1|e] eqn:Hstep; [| by exists e].
    rewrite bind_Ok. apply Exists_cons in Hsome as [Hhere | Hrest];
      [| by apply IH].
    simpl in Hhere.
    destruct (dev_constraints_loop_raises nm _ p Hhere) as [e He].
    rewrite Hstep in He. discriminate.
Qed.

End DevTable.

(** X8: on a host whose Python version is [v], a [dev-dependencies]
    table all of whose constraints the filter can decide (a table without a
    [python] key, a table whose [python] value parses, a string that does
    not contain the text [python]) is decoded successfully: [requires]
    grows, in the order of the table and of each list, by one dependency of
    category [dev] for every constraint without a [python] key or whose
    [python] sub-constraint allows [v], and by nothing for the others; the
    Python-version requirement is untouched. If some constraint cannot be
    decided, the step raises. *)
Theorem load_dev_dependencies_table (cwd : Path) (p : Package)
    (cfg entries : list (string * toml)) (v : Version) :
  env_python_version cwd = Ok v ->
  assoc "dev-dependencies" cfg = Some (TTable entries) ->
  (Forall (fun entry =>
             Forall (fun c => is_Some (dev_keeps v c))
                    (entry_constraints (snd entry)))
          entries ->
   exists p',
     load_dev_dependencies cwd p (TTable cfg) = Ok p' /\
     requires p' = requires p ++ flat_map (dev_entry_requires v) entries /\
     python_versions p' = python_versions p) /\
  (Exists (fun entry =>
             Exists (fun c => dev_keeps v c = None)
                    (entry_constraints (snd entry)))
          entries ->
   exists e, load_dev_dependencies cwd p (TTable cfg) = Raise e).
Proof.
  intros Henv Htable. unfold load_dev_dependencies, py_in, py_getitem.
  rewrite Htable, bool_decide_eq_true_2 by eauto. simpl. rewrite Henv. simpl.
  split; [apply dev_entries_loop | apply dev_entries_loop_raises].
Qed.

End DependencyTables.

Lemma load_dependencies_table_witness :
  exists p',
    load_dependencies (H := Demo.host39) Demo.bare_package
      (TTable [("dependencies",
                TTable [("python", TStr "<3.0"); ("foo", TStr "1.0");
                        ("PYTHON", TStr ">=3.0")])]) = Ok p' /\
    requires p' = [mkDependency "foo" (TStr "1.0") "main" []] /\
    python_versions p' = TStr ">=3.0".
Proof.
  destruct (load_dependencies_table (H := Demo.host39) Demo.bare_package
              [("dependencies",
                TTable [("python", TStr "<3.0"); ("foo", TStr "1.0");
                        ("PYTHON", TStr ">=3.0")])])
    as (_ & Htable & _).
  destruct (Htable [("python", TStr "<3.0"); ("foo", TStr "1.0");
                    ("PYTHON", TStr ">=3.0")] eq_refl)
    as (p' & Hrun & Hrequires & Hpython & _).
  exists p'. split; [exact Hrun |]. split; [exact Hrequires | exact Hpython].
Defined.

Example load_dependencies_not_a_table :
  load_dependencies (H := Demo.host39) Demo.bare_package
    (TTable [("dependencies", TList [TStr "foo"])]) = Raise AttributeError.
Proof. reflexivity. Qed.

Lemma load_dev_dependencies_environment_witness :
  load_dev_dependencies
    (H := Demo.world (3, 9) []) Demo.cwd Demo.bare_package (TTable Demo.minimal)
  = Ok Demo.bare_package.
Proof.
  apply (load_dev_dependencies_environment (H := Demo.world (3, 9) [])
           Demo.cwd Demo.bare_package Demo.minimal).
  reflexivity.
Defined.

Lemma load_dev_dependencies_table_witness :
  exists p',
    load_dev_dependencies (H := Demo.host27) Demo.cwd Demo.bare_package
      (TTable (Demo.section Demo.manifest)) = Ok p' /\
    requires p'
    = [mkDependency "legacy"
         (TTable [("version", TStr "*"); ("python", TStr "<3.0")]) "dev" [];
       mkDependency "pytest" (TStr "^3.0") "dev" []].
Proof.
  destruct (load_dev_dependencies_table (H := Demo.host27) Demo.cwd
              Demo.bare_package (Demo.section Demo.manifest)
              [("legacy", TTable [("version", TStr "*"); ("python", TStr "<3.0")]);
               ("pytest", TStr "^3.0")] (2, 7) eq_refl eq_refl)
    as [Hkept _].
  destruct Hkept as (p' & Hrun & Hrequires & _).
  - repeat (apply Forall_cons; split); try apply Forall_nil; by eexists.
  - exists p'. split; [exact Hrun | exact Hrequires].
Defined.

(** ** More on the locator *)

Section LocatorMore.

Variable fs : FS.

Lemma parents_cons (p : Path) :
  parts p <> [] -> parents p = parent p :: parents (parent p).
Proof.
  destruct p as [a ps]. unfold parents, parent. simpl. intros Hne.
  destruct (length ps) as [|n] eqn:Hlen.
  { destruct ps; [congruence | discriminate]. }
  simpl. f_equal.
  - rewrite removelast_firstn_len, Hlen. simpl. by rewrite Nat.sub_0_r.
  - assert (length (removelast ps) = n) as ->.
    { rewrite removelast_firstn_len, length_take, Hlen. simpl. lia. }
    rewrite <- seq_shift, map_map. apply map_ext_in.
    intros idx Hidx%in_seq. f_equal. simpl.
    rewrite firstn_removelast by lia. reflexivity.
Qed.

(** X9: the manifest that [locate] returns is named [pyproject.toml] and
    exists, and searching again from the directory that holds it returns
    the same manifest. *)
Theorem locate_again (cwd poetry_file : Path) :
  locate fs cwd = Ok poetry_file ->
  name poetry_file = "pyproject.toml" /\
  path_exists fs poetry_file = true /\
  locate fs (parent poetry_file) = Ok poetry_file.
Proof.
  intros Hlocate. destruct (locate_Ok fs cwd poetry_file Hlocate) as (d & -> & Hd).
  split; [apply name_pyproject |]. split; [exact Hd |].
  rewrite parent_pyproject. unfold locate. simpl. by rewrite Hd.
Qed.

(** X10: from a directory that is not a root and holds no manifest, the
    search finds what the search from its parent directory finds, and
    fails when that one fails; from a root without manifest it fails. *)
Theorem locate_ascends (cwd : Path) :
  path_exists fs (cwd </> "pyproject.toml") = false ->
  (parts cwd <> [] ->
     (forall poetry_file,
        locate fs cwd = Ok poetry_file <->
        locate fs (parent cwd) = Ok poetry_file) /\
     (locate fs cwd = Raise (ManifestNotFound cwd) <->
      locate fs (parent cwd) = Raise (ManifestNotFound (parent cwd)))) /\
  (parts cwd = [] -> locate fs cwd = Raise (ManifestNotFound cwd)).
Proof.
  intros Hhere. split.
  - intros Hne. unfold locate. rewrite (parents_cons cwd Hne). simpl.
    rewrite Hhere.
    destruct (path_exists fs (parent cwd </> "pyproject.toml")).
    + split; [tauto |]. split; discriminate.
    + destruct (locate_loop fs (parents (parent cwd))).
      * split; [tauto |]. split; discriminate.
      * split; [split; discriminate | tauto].
  - intros Hroot. unfold locate, parents. rewrite Hroot. simpl. by rewrite Hhere.
Qed.

End LocatorMore.

Lemma locate_again_witness :
  locate (Demo.project "manifest") (parse_path "/work/proj") = Ok Demo.pyproject.
Proof.
  apply (locate_again (Demo.project "manifest") Demo.cwd Demo.pyproject).
  reflexivity.
Defined.

Lemma locate_ascends_witness :
  locate (Demo.project "manifest") Demo.cwd = Ok Demo.pyproject <->
  locate (Demo.project "manifest") (parse_path "/work/proj/src") = Ok Demo.pyproject.
Proof.
  apply (locate_ascends (Demo.project "manifest") Demo.cwd);
    [reflexivity | discriminate].
Defined.

(** ** [create] as a whole *)

Section CreateWhole.

Context `{Collaborators}.

Lemma strip_prefix_Some (base q rest : list string) :
  strip_prefix base q = Some rest -> q = base ++ rest.
Proof.
  revert q. induction base as [|b base IH]; intros [|c q]; simpl;
    try discriminate; try (by intros [= <-]).
  destruct (String.eqb b c) eqn:Hbc; [| discriminate].
  apply String.eqb_eq in Hbc as <-. intros Hrest. by rewrite (IH q Hrest).
Qed.

(** A path under [d/n] has a component [n]. *)
Lemma relative_to_component (q d : Path) (n : string) (rest : list string) :
  relative_to q (mkPath (anchor d) (parts d ++ [n])) = Some rest ->
  n ∈ parts q.
Proof.
  unfold relative_to. simpl. destruct (String.eqb (anchor q) (anchor d));
    [| discriminate].
  intros ->%strip_prefix_Some. rewrite <- app_assoc. simpl.
  apply elem_of_app. right. left.
Qed.

Lemma create_package_Ok (fs : FS) (cwd poetry_file : Path) (cfg : toml)
    (pkg : Package) :
  create_package fs cwd = Ok (poetry_file, cfg, pkg) ->
  locate fs cwd = Ok poetry_file /\
  (exists doc, read fs poetry_file = Ok doc /\
               tool_poetry poetry_file doc = Ok cfg) /\
  validate_object cfg "poetry-schema" = [] /\
  load_package cwd poetry_file cfg = Ok pkg.
Proof.
  unfold create_package.
  intros (f & Hlocate & Hrest)%bind_Ok_inv.
  apply bind_Ok_inv in Hrest as (doc & Hread & Hrest).
  apply bind_Ok_inv in Hrest as (section & Hsection & Hrest).
  apply bind_Ok_inv in Hrest as ([] & Hvalid & Hrest).
  apply bind_Ok_inv in Hrest as (p & Hload & [= -> -> ->]).
  split; [exact Hlocate |]. split; [by exists doc |]. split; [| exact Hload].
  unfold check_validity in Hvalid. rewrite check_errors in Hvalid.
  by destruct (validate_object cfg "poetry-schema").
Qed.

(** X11: what a successful [create] returns. The facade's file is the
    manifest the locator found; its local configuration is the
    [tool.poetry] section of that file, for which the validator reported no
    error; its package is the one built from that section; its locker
    points at [poetry.lock] beside the manifest and holds the section; its
    pool is empty; its configuration is the one loaded from the file system
    as the lock migration left it; and the manifest itself is untouched. *)
Theorem create_Ok (fs fs' : FS) (cwd : Path) (poetry : Poetry) :
  create fs cwd = (fs', Ok poetry) ->
  locate fs cwd = Ok (file poetry) /\
  (exists doc, read fs (file poetry) = Ok doc /\
               tool_poetry (file poetry) doc = Ok (local_config poetry)) /\
  validate_object (local_config poetry) "poetry-schema" = [] /\
  load_package cwd (file poetry) (local_config poetry) = Ok (package poetry) /\
  move_lock fs (file poetry) = Ok fs' /\
  locker poetry
  = mkLocker (parent (file poetry) </> "poetry.lock") (local_config poetry) /\
  load_config fs' (file poetry) = Ok (config poetry) /\
  pool poetry = [] /\
  fs' (file poetry) = fs (file poetry).
Proof.
  unfold create.
  destruct (create_package fs cwd) as [[[poetry_file cfg] pkg]|e] eqn:Hpackage;
    [| discriminate].
  destruct (move_lock fs poetry_file) as [fs1|e] eqn:Hmove; [| discriminate].
  intros [= <- Hfacade].
  apply bind_Ok_inv in Hfacade as (cfg_ & Hconfig & [= <-]). simpl.
  destruct (create_package_Ok _ _ _ _ _ Hpackage)
    as (Hlocate & Hsection & Hvalid & Hload).
  repeat split; try assumption; try reflexivity.
  destruct (locate_Ok _ _ _ Hlocate) as (d & -> & _).
  rewrite move_lock_cases in Hmove. injection Hmove as <-.
  destruct (path_exists fs (d </> "poetry.lock")); [reflexivity |].
  destruct (path_exists fs (d </> "pyproject.lock")); [| reflexivity].
  unfold move.
  assert (relative_to (d </> "pyproject.toml") (d </> "poetry.lock") = None) as ->.
  { unfold relative_to. simpl. rewrite String.eqb_refl.
    by apply strip_prefix_sibling. }
  assert (relative_to (d </> "pyproject.toml") (d </> "pyproject.lock") = None)
    as ->; [| reflexivity].
  unfold relative_to. simpl. rewrite String.eqb_refl.
  by apply strip_prefix_sibling.
Qed.

(** X12: whatever [create] returns or raises, the file system it leaves
    is the one it was given, or that one with [pyproject.lock] renamed to
    [poetry.lock] beside the located manifest, which happens only when
    [poetry.lock] was absent and [pyproject.lock] present; so a path with no
    component of either name is never changed. *)
Theorem create_file_system (fs : FS) (cwd : Path) :
  ((create fs cwd).1 = fs \/
   exists d,
     locate fs cwd = Ok (d </> "pyproject.toml") /\
     path_exists fs (d </> "poetry.lock") = false /\
     path_exists fs (d </> "pyproject.lock") = true /\
     (create fs cwd).1 = move fs (d </> "pyproject.lock") (d </> "poetry.lock")) /\
  (forall q, "poetry.lock" ∉ parts q -> "pyproject.lock" ∉ parts q ->
     (create fs cwd).1 q = fs q).
Proof.
  assert ((create fs cwd).1 = fs \/
          exists d,
            locate fs cwd = Ok (d </> "pyproject.toml") /\
            path_exists fs (d </> "poetry.lock") = false /\
            path_exists fs (d </> "pyproject.lock") = true /\
            (create fs cwd).1
            = move fs (d </> "pyproject.lock") (d </> "poetry.lock")) as Hcases.
  { unfold create.
    destruct (create_package fs cwd) as [[[poetry_file cfg] pkg]|e] eqn:Hpackage;
      [| by left].
    destruct (create_package_Ok _ _ _ _ _ Hpackage) as (Hlocate & _).
    destruct (locate_Ok _ _ _ Hlocate) as (d & -> & _).
    rewrite move_lock_cases.
    destruct (path_exists fs (d </> "poetry.lock")) eqn:Hlock; [by left |].
    destruct (path_exists fs (d </> "pyproject.lock")) eqn:Hold; [| by left].
    right. by exists d. }
  split; [exact Hcases |].
  intros q Hlock Hold. destruct Hcases as [-> | (d & _ & _ & _ & ->)];
    [reflexivity |].
  unfold move.
  destruct (relative_to q (d </> "poetry.lock")) as [rest|] eqn:Hq.
  { exfalso. apply Hlock. by apply (relative_to_component q d _ rest). }
  destruct (relative_to q (d </> "pyproject.lock")) as [rest|] eqn:Hq';
    [| reflexivity].
  exfalso. apply Hold. by apply (relative_to_component q d _ rest).
Qed.

End CreateWhole.

Lemma create_Ok_witness :
  exists fs' poetry,
    create (H := Demo.host39) Demo.old_lock_only Demo.cwd = (fs', Ok poetry) /\
    file poetry = Demo.pyproject /\
    pool poetry = [] /\
    fs' Demo.pyproject = Some (File "manifest").
Proof.
  destruct (create (H := Demo.host39) Demo.old_lock_only Demo.cwd)
    as [fs' [poetry|e]] eqn:Hcreate;
    [| apply (f_equal snd) in Hcreate; vm_compute in Hcreate; discriminate].
  exists fs', poetry. split; [reflexivity |].
  destruct (create_Ok (H := Demo.host39) _ _ _ _ Hcreate)
    as (Hlocate & _ & _ & _ & _ & _ & _ & Hpool & Hmanifest).
  assert (file poetry = Demo.pyproject) as Hfile.
  { assert (locate Demo.old_lock_only Demo.cwd = Ok Demo.pyproject) as Hfound
      by reflexivity.
    rewrite Hfound in Hlocate. by injection Hlocate. }
  rewrite Hfile in Hmanifest.
  split; [exact Hfile |]. split; [exact Hpool |].
  rewrite Hmanifest. reflexivity.
Defined.

Lemma create_file_system_witness :
  (create (H := Demo.host39) Demo.old_lock_only Demo.cwd).1
    (parse_path "/home/user/.config/pypoetry/config.toml")
  = Demo.old_lock_only (parse_path "/home/user/.config/pypoetry/config.toml").
Proof.
  apply (create_file_system (H := Demo.host39) Demo.old_lock_only Demo.cwd);
    intros Hin; vm_compute in Hin;
    repeat (apply elem_of_cons in Hin as [Heq | Hin]; [discriminate |]);
    by apply elem_of_nil in Hin.
Defined.

(** ** Unreadable configuration files *)

Section ConfigurationErrors.

Context `{Collaborators}.

Variable fs : FS.

(** X13: a configuration file that is there and cannot be read makes
    [load_config] fail with the reader's exception; the files are taken in
    the order global settings, local settings, global authentication, so
    the first unreadable one decides and the later ones are not read. *)
Theorem load_config_unreadable (poetry_file : Path) (e : exn) :
  let global := CONFIG_DIR </> "config.toml" in
  let local_ := parent poetry_file </> "poetry.toml" in
  let auth := CONFIG_DIR </> "auth.toml" in
  (path_exists fs global = true -> read fs global = Raise e ->
     load_config fs poetry_file = Raise e) /\
  (path_exists fs global = false \/ (exists d, read fs global = Ok d) ->
   path_exists fs local_ = true -> read fs local_ = Raise e ->
     load_config fs poetry_file = Raise e) /\
  (path_exists fs global = false \/ (exists d, read fs global = Ok d) ->
   path_exists fs local_ = false \/ (exists d, read fs local_ = Ok d) ->
   path_exists fs auth = true -> read fs auth = Raise e ->
     load_config fs poetry_file = Raise e).
Proof.
  intros global local_ auth.
  assert (forall cfg f, path_exists fs f = false \/ (exists d, read fs f = Ok d) ->
            exists cfg', merge_if_exists fs cfg f = Ok cfg') as Hpass.
  { intros cfg f [Habsent | [d Hd]]; unfold merge_if_exists.
    - rewrite Habsent. by eexists.
    - destruct (path_exists fs f); [rewrite Hd |]; by eexists. }
  assert (forall cfg f, path_exists fs f = true -> read fs f = Raise e ->
            merge_if_exists fs cfg f = Raise e) as Hfail.
  { intros cfg f Hpresent Hread. unfold merge_if_exists.
    by rewrite Hpresent, Hread. }
  unfold load_config. cbv zeta. fold global local_ auth.
  split; [| split].
  - intros Hpresent Hread. by rewrite (Hfail _ _ Hpresent Hread).
  - intros Hglobal Hpresent Hread.
    destruct (Hpass Config_new global Hglobal) as [cfg1 ->]. rewrite bind_Ok.
    by rewrite (Hfail _ _ Hpresent Hread).
  - intros Hglobal Hlocal Hpresent Hread.
    destruct (Hpass Config_new global Hglobal) as [cfg1 ->]. rewrite bind_Ok.
    destruct (Hpass cfg1 local_ Hlocal) as [cfg2 ->]. rewrite bind_Ok.
    exact (Hfail _ _ Hpresent Hread).
Qed.

End ConfigurationErrors.

Lemma load_config_unreadable_witness :
  load_config (H := Demo.host39)
    (Demo.files [(parse_path "/work/proj/pyproject.toml", File "manifest");
                 (parse_path "/work/proj/poetry.toml", File "not toml")])
    Demo.pyproject
  = Raise TOMLError.
Proof.
  pose proof (load_config_unreadable (H := Demo.host39)
                (Demo.files
                   [(parse_path "/work/proj/pyproject.toml", File "manifest");
                    (parse_path "/work/proj/poetry.toml", File "not toml")])
                Demo.pyproject TOMLError) as Hcases.
  cbv zeta in Hcases. destruct Hcases as (_ & Hlocal & _).
  apply Hlocal; [by left | reflexivity | reflexivity].
Defined.

(** ** More on the credential resolver *)

Section RepositoryMore.

Context `{Collaborators}.

(** X14: a repository that the resolver returns has the name and the url
    of the source; when it carries authentication, that authentication is
    for the same url and holds exactly the pair stored for the name, and
    when it carries none, nothing is stored for the name. *)
Theorem create_legacy_repository_Ok (self : Poetry) (source : gmap string string)
    (repo : LegacyRepository) :
  create_legacy_repository self source = Ok repo ->
  source !! "name" = Some (repo_name repo) /\
  source !! "url" = Some (repo_url repo) /\
  match repo_auth repo with
  | Some auth =>
      auth_url auth = repo_url repo /\
      get_http_basic_auth (config self) (repo_name repo)
      = Some (auth_username auth, auth_password auth)
  | None => get_http_basic_auth (config self) (repo_name repo) = None
  end.
Proof.
  unfold create_legacy_repository.
  destruct (source !! "url") as [url|] eqn:Hurl.
  - rewrite (bool_decide_eq_true_2 (is_Some (Some url))) by eauto.
    destruct (source !! "name") as [nm|] eqn:Hname.
    + rewrite bool_decide_eq_true_2 by eauto. simpl.
      destruct (get_http_basic_auth (config self) nm) as [[user password]|]
        eqn:Hcred; intros [= <-]; simpl; by rewrite Hcred.
    + rewrite bool_decide_eq_false_2 by (by intros [? [=]]). discriminate.
  - rewrite bool_decide_eq_false_2 by (by intros [? [=]]). discriminate.
Qed.

(** X15: the resolver looks at the keys [name] and [url] only: setting
    any other key of the source changes nothing in what it returns or
    raises. *)
Theorem create_legacy_repository_other_keys (self : Poetry)
    (source : gmap string string) (key value : string) :
  key <> "name" -> key <> "url" ->
  create_legacy_repository self (<[key := value]> source)
  = create_legacy_repository self source.
Proof.
  intros Hname Hurl. unfold create_legacy_repository.
  by rewrite !lookup_insert_ne by done.
Qed.

(** X16: the resolver depends on the facade through its configuration
    only: two facades with the same configuration resolve every source
    alike, so [set_pool] changes nothing for it, and after [set_config] the
    credentials are those of the new configuration, whatever the facade
    held before. *)
Theorem create_legacy_repository_config_only (self other : Poetry)
    (source : gmap string string) :
  (config self = config other ->
     create_legacy_repository self source
     = create_legacy_repository other source) /\
  (forall pool_,
     create_legacy_repository (set_pool self pool_) source
     = create_legacy_repository self source) /\
  (forall config_,
     create_legacy_repository (set_config self config_) source
     = create_legacy_repository (set_config other config_) source).
Proof.
  split; [| split].
  - intros Hconfig. unfold create_legacy_repository. by rewrite Hconfig.
  - reflexivity.
  - reflexivity.
Qed.

End RepositoryMore.

Lemma create_legacy_repository_Ok_witness :
  ({[ "name" := "private"; "url" := "https://x" ]} : gmap string string) !! "name"
  = Some (repo_name (mkLegacyRepository "private" "https://x"
                       (Some (mkAuth "https://x" "user" "secret")))).
Proof.
  apply (create_legacy_repository_Ok (Demo.facade Demo.with_credentials)
           {[ "name" := "private"; "url" := "https://x" ]}
           (mkLegacyRepository "private" "https://x"
              (Some (mkAuth "https://x" "user" "secret")))).
  reflexivity.
Defined.

Lemma create_legacy_repository_other_keys_witness :
  create_legacy_repository (Demo.facade Demo.with_credentials)
    (<["verify" := "false"]> {[ "name" := "private"; "url" := "https://x" ]})
  = create_legacy_repository (Demo.facade Demo.with_credentials)
      {[ "name" := "private"; "url" := "https://x" ]}.
Proof.
  apply (create_legacy_repository_other_keys (Demo.facade Demo.with_credentials));
    discriminate.
Defined.

Lemma create_legacy_repository_config_only_witness :
  create_legacy_repository
    (set_config (Demo.facade []) Demo.with_credentials)
    {[ "name" := "private"; "url" := "https://x" ]}
  = create_legacy_repository (Demo.facade Demo.with_credentials)
      {[ "name" := "private"; "url" := "https://x" ]}.
Proof.
  apply (proj1 (create_legacy_repository_config_only
                  (set_config (Demo.facade []) Demo.with_credentials)
                  (Demo.facade Demo.with_credentials) _)).
  reflexivity.
Defined.

(** ** Extras and their back-references *)

Section ExtrasConsistency.

Context `{Collaborators}.

Lemma no_extras_yet_add (p : Package) nm constraint category :
  no_extras_yet p -> no_extras_yet (add_dependency p nm constraint category).
Proof.
  unfold no_extras_yet. rewrite requires_add_dependency, Forall_app.
  intros Hp. split; [exact Hp |]. by constructor.
Qed.

Lemma no_extras_yet_dependencies (p p' : Package) (cfg : toml) :
  no_extras_yet p -> load_dependencies p cfg = Ok p' -> no_extras_yet p'.
Proof.
  intros Hp. unfold load_dependencies.
  intros (present & _ & Hrest)%bind_Ok_inv.
  destruct present; [| by injection Hrest as <-].
  apply bind_Ok_inv in Hrest as (table & _ & Hrest).
  apply bind_Ok_inv in Hrest as (entries & _ & [= <-]).
  revert p Hp. induction entries as [|[nm c] entries IH]; intros p Hp; simpl;
    [exact Hp |].
  apply IH. destruct (String.eqb (lower nm) "python"); [exact Hp |].
  destruct c; try by apply no_extras_yet_add.
  revert p Hp. induction items as [|c cs IHcs]; intros p Hp; simpl; [exact Hp |].
  by apply IHcs, no_extras_yet_add.
Qed.

Lemma no_extras_yet_dev_dependencies (cwd : Path) (p p' : Package) (cfg : toml) :
  no_extras_yet p -> load_dev_dependencies cwd p cfg = Ok p' -> no_extras_yet p'.
Proof.
  intros Hp. unfold load_dev_dependencies.
  intros (present & _ & Hrest)%bind_Ok_inv.
  destruct present; [| by injection Hrest as <-].
  apply bind_Ok_inv in Hrest as (v & _ & Hrest).
  apply bind_Ok_inv in Hrest as (table & _ & Hrest).
  apply bind_Ok_inv in Hrest as (entries & _ & Hloop).
  revert Hloop. apply (for_each_invariant no_extras_yet); [| exact Hp].
  intros q [nm constraint] q' Hq. unfold dev_dependencies_entry.
  apply (for_each_invariant no_extras_yet); [| exact Hq].
  intros q1 c q2 Hq1. unfold dev_dependencies_constraint.
  intros (has_python & _ & Hrest)%bind_Ok_inv.
  destruct has_python.
  - apply bind_Ok_inv in Hrest as (sub & _ & Hrest).
    apply bind_Ok_inv in Hrest as (python_constraint & _ & Hrest).
    destruct (allows python_constraint v); simpl in Hrest;
      injection Hrest as <-; [by apply no_extras_yet_add | exact Hq1].
  - injection Hrest as <-. by apply no_extras_yet_add.
Qed.

Lemma elem_of_extras_reaching (deps : list Dependency)
    (entries : list (string * list string)) (i : nat) (e : string) :
  e ∈ extras_reaching deps entries i <->
  exists reqs r, (e, reqs) ∈ entries /\ r ∈ reqs /\ first_index r deps = Some i.
Proof.
  unfold extras_reaching. rewrite list_elem_of_In, in_flat_map. split.
  - intros ([e' reqs] & Hentry & Hin). simpl in Hin.
    apply in_flat_map in Hin as (r & Hr & Hin).
    destruct (decide (first_index r deps = Some i)) as [Hfirst|];
      [| by destruct Hin].
    destruct Hin as [<- | []].
    exists reqs, r. by rewrite !list_elem_of_In.
  - intros (reqs & r & Hentry & Hr & Hfirst).
    exists (e, reqs). rewrite <- list_elem_of_In. split; [exact Hentry |].
    simpl. apply in_flat_map. exists r. rewrite <- list_elem_of_In.
    split; [exact Hr |]. rewrite decide_True by exact Hfirst. by left.
Qed.

(** X17: in a package built from a section whose [extras] table maps
    distinct extra names to lists of names, the two sides of the extras
    relation agree: for every declared extra and every position of
    [requires], the extra is in the dependency's [in_extras] exactly when
    the position is listed under the extra; every position listed under an
    extra lies within [requires], and the dependency there bears a name
    from the extra's list; and a dependency's [in_extras] holds declared
    extras only. *)
Theorem load_package_extras_consistent (cwd poetry_file : Path)
    (cfg : list (string * toml)) (entries : list (string * list string))
    (pkg : Package) :
  load_package cwd poetry_file (TTable cfg) = Ok pkg ->
  assoc "extras" cfg = Some (extras_table entries) ->
  NoDup (map fst entries) ->
  (forall e reqs i dep,
     (e, reqs) ∈ entries -> requires pkg !! i = Some dep ->
     (e ∈ in_extras dep <->
      exists refs, assoc e (extras pkg) = Some refs /\ i ∈ refs)) /\
  (forall e reqs refs i,
     (e, reqs) ∈ entries -> assoc e (extras pkg) = Some refs -> i ∈ refs ->
     exists dep, requires pkg !! i = Some dep /\ dep_name dep ∈ reqs) /\
  (forall i dep e,
     requires pkg !! i = Some dep -> e ∈ in_extras dep -> e ∈ map fst entries).
Proof.
  intros Hload Hcfg Hnodup.
  destruct (load_package_Ok cwd poetry_file cfg pkg Hload)
    as (nm & version & authors_ & maintainers_ & license_ & readme_
        & p1 & p2 & p3 & _ & _ & _ & _ & _ & _ & Hp1 & Hp2 & Hp3 & ->).
  assert (no_extras_yet p2) as Hfresh.
  { eapply no_extras_yet_dev_dependencies; [| exact Hp2].
    eapply no_extras_yet_dependencies; [| exact Hp1]. constructor. }
  assert (extras p2 = []) as Hempty.
  { rewrite (extras_load_dev_dependencies _ _ _ _ Hp2),
            (extras_load_dependencies _ _ _ Hp1). reflexivity. }
  destruct (extras_entries_loop (requires p2) entries (fun _ => []) [] p2)
    as (p3' & Hrun & Hreq & Hex);
    [by rewrite recorded_nothing | exact Hempty | exact Hnodup |].
  assert (p3' = p3) as ->.
  { unfold load_extras, py_get_default in Hp3. simpl in Hp3.
    rewrite Hcfg in Hp3. simpl in Hp3. unfold extras_table in Hp3. congruence. }
  simpl in Hex. simpl requires. simpl extras.
  set (deps0 := requires p2) in *.
  assert (forall e reqs, (e, reqs) ∈ entries ->
            assoc e (extras p3)
            = Some (omap (fun r => first_index r deps0) reqs)) as Hassoc.
  { intros e reqs Hin. rewrite Hex. apply assoc_elem_of.
    - rewrite <- list_fmap_compose. exact Hnodup.
    - apply list_elem_of_fmap. by exists (e, reqs). }
  assert (forall i dep, requires p3 !! i = Some dep ->
            exists d0, deps0 !! i = Some d0 /\ dep_name dep = dep_name d0 /\
                       in_extras dep = extras_reaching deps0 entries i) as Hdep.
  { intros i dep. rewrite Hreq. unfold recorded. rewrite list_lookup_imap.
    destruct (deps0 !! i) as [d0|] eqn:Hd0; simpl; [| discriminate].
    intros [= <-]. exists d0. split; [reflexivity |]. split; [reflexivity |].
    simpl. unfold no_extras_yet in Hfresh.
    rewrite Forall_lookup in Hfresh. by rewrite (Hfresh i d0 Hd0). }
  assert (forall e reqs reqs', (e, reqs) ∈ entries -> (e, reqs') ∈ entries ->
            reqs = reqs') as Hunique.
  { intros e reqs reqs' Hin Hin'.
    pose proof (assoc_elem_of e reqs entries Hnodup Hin) as Ha.
    pose proof (assoc_elem_of e reqs' entries Hnodup Hin') as Ha'. congruence. }
  split; [| split].
  - intros e reqs i dep Hin Hlookup.
    destruct (Hdep i dep Hlookup) as (d0 & _ & _ & ->).
    rewrite elem_of_extras_reaching, (Hassoc e reqs Hin). split.
    + intros (reqs' & r & Hin' & Hr & Hfirst).
      rewrite <- (Hunique e reqs reqs' Hin Hin') in Hr.
      eexists. split; [reflexivity |]. apply list_elem_of_omap. eauto.
    + intros (refs & [= <-] & (r & Hr & Hfirst)%list_elem_of_omap). eauto.
  - intros e reqs refs i Hin Hrefs Href.
    rewrite (Hassoc e reqs Hin) in Hrefs. injection Hrefs as <-.
    apply list_elem_of_omap in Href as (r & Hr & Hfirst).
    apply first_index_Some in Hfirst as [(d0 & Hd0 & Hname) _].
    rewrite Hreq. unfold recorded. rewrite list_lookup_imap, Hd0. simpl.
    eexists. split; [reflexivity |]. simpl. by rewrite Hname.
  - intros i dep e Hlookup He.
    destruct (Hdep i dep Hlookup) as (d0 & _ & _ & Hextras).
    rewrite Hextras in He.
    apply elem_of_extras_reaching in He as (reqs & r & Hin & _ & _).
    apply list_elem_of_fmap. by exists (e, reqs).
Qed.

End ExtrasConsistency.

Lemma load_package_extras_consistent_witness :
  exists pkg,
    load_package (H := Demo.host39) Demo.cwd Demo.pyproject
      (TTable (Demo.section Demo.manifest)) = Ok pkg /\
    (forall i dep e,
       requires pkg !! i = Some dep -> e ∈ in_extras dep -> e ∈ ["feature"]).
Proof.
  destruct (load_package (H := Demo.host39) Demo.cwd Demo.pyproject
              (TTable (Demo.section Demo.manifest))) as [pkg|e] eqn:Hload;
    [| vm_compute in Hload; discriminate].
  exists pkg. split; [reflexivity |].
  apply (load_package_extras_consistent (H := Demo.host39) Demo.cwd
           Demo.pyproject (Demo.section Demo.manifest)
           [("feature", ["foo"; "missing"])] pkg Hload).
  - reflexivity.
  - apply NoDup_singleton.
Defined.

(** * The claims that read differently on the code *)

(** ** Lexical parents and directories *)

Lemma resolve_from (dir : list string) (l : list string) :
  ".." ∉ l ->
  fold_left (fun dir part =>
               if String.eqb part ".." then removelast dir else dir ++ [part])
            l dir
  = dir ++ l.
Proof.
  revert dir. induction l as [|part l IH]; intros dir Hplain; simpl.
  - by rewrite app_nil_r.
  - apply not_elem_of_cons in Hplain as [Hpart Hrest].
    assert (String.eqb part ".." = false) as ->
      by (apply String.eqb_neq; congruence).
    rewrite IH by exact Hrest. by rewrite <- app_assoc.
Qed.

(** An absolute path without [..] stands for the directory its components
    spell, wherever the process works. *)
Lemma resolve_plain (wd : list string) (p : Path) :
  anchor p = "/" -> ".." ∉ parts p -> resolve wd p = parts p.
Proof.
  intros Habs Hplain. unfold resolve. rewrite Habs. simpl.
  by rewrite resolve_from.
Qed.

(** For an absolute starting path without [..], the candidates of the
    locator are the starting directory and its ancestors, child to root:
    candidate [i] stands for the directory [i] levels up. *)
Lemma candidates_are_ancestors (wd : list string) (cwd : Path) (i : nat)
    (d : Path) :
  anchor cwd = "/" -> ".." ∉ parts cwd ->
  (cwd :: parents cwd) !! i = Some d ->
  resolve wd d = firstn (length (resolve wd cwd) - i) (resolve wd cwd).
Proof.
  intros Habs Hplain. rewrite (resolve_plain wd cwd Habs Hplain).
  destruct i as [|i]; simpl.
  - intros [= <-]. rewrite (resolve_plain wd cwd Habs Hplain).
    by rewrite Nat.sub_0_r, firstn_all.
  - unfold parents. rewrite list_lookup_fmap.
    destruct (seq 0 (length (parts cwd)) !! i) as [k|] eqn:Hk; [| discriminate].
    apply lookup_seq in Hk as [-> Hi]. simpl. intros [= <-].
    rewrite resolve_plain; simpl.
    + f_equal. lia.
    + exact Habs.
    + intros Hin. apply Hplain.
      rewrite <- (take_drop (length (parts cwd) - i - 1) (parts cwd)).
      apply elem_of_app. by left.
Qed.

(** C6, as stated, fails on relative paths. A process working in
    [/home/user/work] that starts the search from [.] finds nothing
    although the parent directory [/home/user] holds a manifest, since [.]
    has no lexical parent; and starting from [../proj], that is
    [/home/user/proj], it is handed the manifest of [/home/user/work], a
    directory that is no ancestor of the start, since [.] is the last
    lexical parent of [../proj]. *)
Lemma locate_lexical_counterexample :
  (locate (view Demo.working_directory (Demo.disk ["home"; "user"; "pyproject.toml"]))
          (parse_path ".")
   = Raise (ManifestNotFound (parse_path ".")) /\
   resolve Demo.working_directory (parse_path ".") = ["home"; "user"; "work"] /\
   Demo.disk ["home"; "user"; "pyproject.toml"] ["home"; "user"; "pyproject.toml"]
   = Some (File "manifest")) /\
  (locate (view Demo.working_directory
             (Demo.disk ["home"; "user"; "work"; "pyproject.toml"]))
          (parse_path "../proj")
   = Ok (parse_path "pyproject.toml") /\
   resolve Demo.working_directory (parse_path "../proj") = ["home"; "user"; "proj"] /\
   resolve Demo.working_directory (parse_path "pyproject.toml")
   = ["home"; "user"; "work"; "pyproject.toml"]).
Proof. vm_compute. repeat split; reflexivity. Qed.

Example locate_absolute_ancestors :
  map (resolve Demo.working_directory) (Demo.cwd :: parents Demo.cwd)
  = [["work"; "proj"; "src"; "pkg"]; ["work"; "proj"; "src"]; ["work"; "proj"];
     ["work"]; []].
Proof. reflexivity. Qed.

(** ** The main dependency table in the package that is built *)

Section MainTable.

Context `{Collaborators}.

(** The last entry named [python] decides. *)
Lemma last_python_last (before : toml) (pre post : list (string * toml))
    (nm : string) (c : toml) :
  lower nm = "python" ->
  Forall (fun entry => lower (fst entry) <> "python") post ->
  last_python before (pre ++ (nm, c) :: post) = c.
Proof.
  intros Hname Hpost. unfold last_python. rewrite fold_left_app. simpl.
  rewrite Hname. simpl.
  generalize (fold_left
    (fun acc entry =>
       if String.eqb (lower (fst entry)) "python" then snd entry else acc)
    pre before). intros _.
  induction Hpost as [|entry post Hentry _ IH]; simpl; [reflexivity |].
  apply String.eqb_neq in Hentry. by rewrite Hentry.
Qed.

(** The development step appends to [requires], and only dependencies of
    category [dev]. *)
Lemma dev_step_appends (cwd : Path) (p p' : Package) (cfg : toml) :
  load_dev_dependencies cwd p cfg = Ok p' ->
  exists dev, requires p' = requires p ++ dev /\
              Forall (fun dep => dep_category dep = "dev") dev.
Proof.
  unfold load_dev_dependencies.
  intros (present & _ & Hrest)%bind_Ok_inv.
  destruct present;
    [| injection Hrest as <-; exists []; by rewrite app_nil_r].
  apply bind_Ok_inv in Hrest as (v & _ & Hrest).
  apply bind_Ok_inv in Hrest as (table & _ & Hrest).
  apply bind_Ok_inv in Hrest as (entries & _ & Hloop).
  set (appended := fun q : Package =>
         exists dev, requires q = requires p ++ dev /\
                     Forall (fun dep => dep_category dep = "dev") dev).
  assert (forall q nm c, appended q -> appended (add_dependency q nm c "dev"))
    as Hadd.
  { intros q nm c (dev & Hq & Hdev).
    exists (dev ++ [mkDependency nm c "dev" []]). split.
    - by rewrite requires_add_dependency, Hq, app_assoc.
    - apply Forall_app. split; [exact Hdev | by constructor]. }
  revert Hloop. apply (for_each_invariant appended);
    [| exists []; by rewrite app_nil_r].
  intros q [nm constraint] q' Hq. unfold dev_dependencies_entry.
  apply (for_each_invariant appended); [| exact Hq].
  intros q1 c q2 Hq1. unfold dev_dependencies_constraint.
  intros (has_python & _ & Hrest)%bind_Ok_inv.
  destruct has_python.
  - apply bind_Ok_inv in Hrest as (sub & _ & Hrest).
    apply bind_Ok_inv in Hrest as (python_constraint & _ & Hrest).
    destruct (allows python_constraint v); simpl in Hrest;
      injection Hrest as <-; [by apply Hadd | exact Hq1].
  - injection Hrest as <-. by apply Hadd.
Qed.

Lemma dep_fields_alter (e : string) (i : nat) (deps : list Dependency) :
  map dep_fields (alter (fun dep => add_extras dep [e]) i deps)
  = map dep_fields deps.
Proof.
  revert i. induction deps as [|d deps IH]; intros [|i]; simpl;
    try reflexivity.
  f_equal. apply IH.
Qed.

(** The extras step changes no name, constraint or category. *)
Lemma dep_fields_load_extras (p p' : Package) (cfg : toml) :
  load_extras p cfg = Ok p' ->
  map dep_fields (requires p') = map dep_fields (requires p).
Proof.
  unfold load_extras.
  intros (table & _ & Hrest)%bind_Ok_inv.
  apply bind_Ok_inv in Hrest as (entries & _ & Hloop).
  revert Hloop.
  apply (for_each_invariant
           (fun q => map dep_fields (requires q) = map dep_fields (requires p)));
    [| reflexivity].
  intros q [extra_name requirements] q' Hq. unfold extras_entry.
  intros (reqs & _ & Hloop)%bind_Ok_inv. revert Hloop.
  apply (for_each_invariant
           (fun q => map dep_fields (requires q) = map dep_fields (requires p)));
    [| exact Hq].
  intros q1 req q2 Hq1. unfold extras_requirement.
  destruct req as [req_name| | | |]; try discriminate.
  rewrite extras_search_first. intros [= <-].
  destruct (first_index req_name (requires q1)) as [i|]; simpl;
    by rewrite ?dep_fields_alter.
Qed.

(** The main table in the package [load_package] returns. *)
Lemma load_package_main_table (cwd poetry_file : Path)
    (cfg entries : list (string * toml)) (pkg : Package) :
  load_package cwd poetry_file (TTable cfg) = Ok pkg ->
  assoc "dependencies" cfg = Some (TTable entries) ->
  python_versions pkg = last_python (TStr "*") entries /\
  exists dev,
    map dep_fields (requires pkg)
    = map dep_fields (flat_map entry_requires entries ++ dev) /\
    Forall (fun dep => dep_category dep = "dev") dev.
Proof.
  intros Hload Hdeps.
  destruct (load_package_Ok cwd poetry_file cfg pkg Hload)
    as (nm & version & authors_ & maintainers_ & license_ & readme_
        & p1 & p2 & p3 & _ & _ & _ & _ & _ & _ & Hp1 & Hp2 & Hp3 & ->).
  unfold load_dependencies, py_in, py_getitem in Hp1. rewrite Hdeps in Hp1.
  rewrite bool_decide_eq_true_2 in Hp1 by eauto. simpl in Hp1.
  injection Hp1 as <-.
  split.
  - change (python_versions (set_passthrough p3 _ _ _ _ _))
      with (python_versions p3).
    rewrite (kept_load_extras python_versions (fun _ _ => eq_refl)
               (fun _ _ => eq_refl) _ _ _ Hp3).
    rewrite (kept_load_dev_dependencies python_versions (fun _ _ => eq_refl)
               _ _ _ _ Hp2).
    by rewrite python_versions_dependencies.
  - destruct (dev_step_appends _ _ _ _ Hp2) as (dev & Hreq2 & Hdev).
    exists dev. split; [| exact Hdev].
    change (requires (set_passthrough p3 _ _ _ _ _)) with (requires p3).
    rewrite (dep_fields_load_extras _ _ _ Hp3), Hreq2, requires_dependencies.
    reflexivity.
Qed.

(** C2, as the code has it: in the package that [create] returns for a
    section with a main dependency table, the Python-version requirement is
    the constraint of the last entry of the table whose name is [python] in
    any letter case (a later such entry replaces an earlier one), and no
    such entry adds a dependency; [requires] holds first, in the order of
    the table, what the other entries stand for, one dependency of the
    entry's name and category ["main"] for a constraint that is not a list
    and one per element for a list, and after them dependencies of category
    ["dev"] only. *)
Theorem create_main_dependencies (fs fs' : FS) (cwd : Path) (poetry : Poetry)
    (cfg entries : list (string * toml)) :
  create fs cwd = (fs', Ok poetry) ->
  local_config poetry = TTable cfg ->
  assoc "dependencies" cfg = Some (TTable entries) ->
  (forall pre nm c post,
     entries = pre ++ (nm, c) :: post ->
     lower nm = "python" ->
     Forall (fun entry => lower (fst entry) <> "python") post ->
     python_versions (package poetry) = c) /\
  (exists dev,
     map dep_fields (requires (package poetry))
     = map dep_fields (flat_map entry_requires entries ++ dev) /\
     Forall (fun dep => dep_category dep = "dev") dev) /\
  Forall (fun entry =>
            (lower (fst entry) = "python" -> entry_requires entry = []) /\
            (lower (fst entry) <> "python" -> forall constraints,
               snd entry = TList constraints ->
               entry_requires entry
               = map (fun c => mkDependency (fst entry) c "main" []) constraints) /\
            (lower (fst entry) <> "python" -> is_list (snd entry) = false ->
               entry_requires entry
               = [mkDependency (fst entry) (snd entry) "main" []]))
         entries.
Proof.
  intros Hcreate Hsection Hdeps.
  assert (exists poetry_file,
            load_package cwd poetry_file (TTable cfg) = Ok (package poetry))
    as [poetry_file Hload].
  { unfold create in Hcreate.
    destruct (create_package fs cwd) as [[[poetry_file section] pkg]|e]
      eqn:Hpackage; [| discriminate].
    destruct (move_lock fs poetry_file) as [fs1|e]; [| discriminate].
    injection Hcreate as _ Hfacade.
    apply bind_Ok_inv in Hfacade as (cfg_ & _ & [= <-]).
    simpl in Hsection. subst section. exists poetry_file.
    by destruct (create_package_Ok _ _ _ _ _ Hpackage) as (_ & _ & _ & Hload). }
  destruct (load_package_main_table _ _ _ _ _ Hload Hdeps) as [Hpython Hrequires].
  split; [| split; [exact Hrequires |]].
  - intros pre nm c post -> Hname Hpost. rewrite Hpython.
    by apply last_python_last.
  - apply Forall_forall. intros [nm c] _. unfold entry_requires. simpl.
    split; [| split].
    + intros ->. reflexivity.
    + intros Hname%String.eqb_neq constraints ->. by rewrite Hname.
    + intros Hname%String.eqb_neq Hscalar. rewrite Hname.
      by destruct c.
Qed.

End MainTable.

Lemma create_main_dependencies_witness :
  exists fs' poetry,
    create (H := Demo.host39) (Demo.project "manifest") Demo.cwd
    = (fs', Ok poetry) /\
    python_versions (package poetry) = TStr ">=3.0".
Proof.
  destruct (create (H := Demo.host39) (Demo.project "manifest") Demo.cwd)
    as [fs' [poetry|e]] eqn:Hcreate;
    [| apply (f_equal snd) in Hcreate; vm_compute in Hcreate; discriminate].
  exists fs', poetry. split; [reflexivity |].
  assert (local_config poetry = TTable (Demo.section Demo.manifest)) as Hsection.
  { assert (local_config <$>
              (create (H := Demo.host39) (Demo.project "manifest") Demo.cwd).2
            = Ok (TTable (Demo.section Demo.manifest))) as Hrun
      by (vm_compute; reflexivity).
    rewrite Hcreate in Hrun. by injection Hrun. }
  destruct (create_main_dependencies (H := Demo.host39) _ _ _ _
              (Demo.section Demo.manifest)
              [("Python", TStr ">=3.0");
               ("foo", TList [TStr "1.0"; TStr "2.0"]);
               ("bar", TStr "^1.0")] Hcreate Hsection eq_refl)
    as (Hpython & _ & _).
  apply (Hpython [] "Python" (TStr ">=3.0")
           [("foo", TList [TStr "1.0"; TStr "2.0"]); ("bar", TStr "^1.0")]).
  - reflexivity.
  - reflexivity.
  - repeat constructor; discriminate.
Defined.

(** C2, as stated, fails for a table that names the interpreter twice:
    [python = "<3.0"] is an entry whose name is [python], yet the package
    that is built requires [">=3.0"], the constraint of the later entry
    [PYTHON]. *)
Lemma python_entry_replaced_counterexample :
  exists fs' poetry,
    create (H := Demo.host_two_pythons)
      (Demo.files [(Demo.pyproject, File "two-pythons")]) Demo.cwd
    = (fs', Ok poetry) /\
    py_getitem (local_config poetry) "dependencies"
    = Ok (TTable [("python", TStr "<3.0"); ("foo", TStr "1.0");
                  ("PYTHON", TStr ">=3.0")]) /\
    lower "python" = "python" /\
    python_versions (package poetry) = TStr ">=3.0" /\
    python_versions (package poetry) <> TStr "<3.0".
Proof.
  eexists _, _. split; [vm_compute; reflexivity |].
  split; [reflexivity |]. split; [reflexivity |].
  split; [reflexivity | discriminate].
Qed.
